(** * ExceptionHandlerDecorator: guards around callables

    A shallow embedding of [ExceptionHandlerDecorator.py].  The Python
    run-time behaviour that the module relies on (exception classes and the
    way an [except] clause selects them, true division, [functools.reduce],
    [open]/[write]/[close] on the host file system, [traceback.print_exc])
    is modelled in [Module Py]; the class [ExceptionHandler] and the
    demonstration function [div_array] follow the source line by line. *)

From Stdlib Require Import ZArith String Ascii DecimalString.
From Stdlib Require Import Floats.PrimFloat Floats.SpecFloat Floats.FloatOps.
From stdpp Require Import gmap strings list.

Local Open Scope string_scope.
Local Open Scope list_scope.

(** ** The Python side *)

Module Py.

(** Exception classes: the built-in ones that the module and its
    demonstration can meet, and single-inheritance user classes. *)
Inductive exc_class : Type :=
  | BaseException
  | KeyboardInterrupt
  | Exception
  | ArithmeticError
  | ZeroDivisionError
  | OverflowError
  | TypeError
  | ValueError
  | LookupError
  | KeyError
  | IndexError
  | OSError
  | FileNotFoundError
  | PermissionError
  | IsADirectoryError
  | UserDefined (name : string) (base : exc_class).

#[global] Instance exc_class_eq_dec : EqDecision exc_class.
Proof. solve_decision. Defined.

(** [cls.__mro__] without the trailing [object]. *)
Fixpoint mro (cls : exc_class) : list exc_class :=
  match cls with
  | BaseException => [BaseException]
  | KeyboardInterrupt => [KeyboardInterrupt; BaseException]
  | Exception => [Exception; BaseException]
  | ArithmeticError => [ArithmeticError; Exception; BaseException]
  | ZeroDivisionError =>
      [ZeroDivisionError; ArithmeticError; Exception; BaseException]
  | OverflowError =>
      [OverflowError; ArithmeticError; Exception; BaseException]
  | TypeError => [TypeError; Exception; BaseException]
  | ValueError => [ValueError; Exception; BaseException]
  | LookupError => [LookupError; Exception; BaseException]
  | KeyError => [KeyError; LookupError; Exception; BaseException]
  | IndexError => [IndexError; LookupError; Exception; BaseException]
  | OSError => [OSError; Exception; BaseException]
  | FileNotFoundError =>
      [FileNotFoundError; OSError; Exception; BaseException]
  | PermissionError => [PermissionError; OSError; Exception; BaseException]
  | IsADirectoryError =>
      [IsADirectoryError; OSError; Exception; BaseException]
  | UserDefined _ base => cls :: mro base
  end.

Definition issubclass (cls parent : exc_class) : bool :=
  bool_decide (parent ∈ mro cls).

Definition class_name (cls : exc_class) : string :=
  match cls with
  | BaseException => "BaseException"
  | KeyboardInterrupt => "KeyboardInterrupt"
  | Exception => "Exception"
  | ArithmeticError => "ArithmeticError"
  | ZeroDivisionError => "ZeroDivisionError"
  | OverflowError => "OverflowError"
  | TypeError => "TypeError"
  | ValueError => "ValueError"
  | LookupError => "LookupError"
  | KeyError => "KeyError"
  | IndexError => "IndexError"
  | OSError => "OSError"
  | FileNotFoundError => "FileNotFoundError"
  | PermissionError => "PermissionError"
  | IsADirectoryError => "IsADirectoryError"
  | UserDefined name _ => name
  end.

(** One traceback entry, and the traceback of an exception in flight: the
    frames it has unwound through, outermost first. *)
Record frame : Type :=
  Frame { fr_file : string; fr_line : nat; fr_name : string; fr_text : string }.

Definition traceback : Type := list frame.

#[local] Set Warnings "-register-all".

(** An exception value: its class, its message ([str(e)]) and its
    [__context__], the exception that was being handled when it was raised,
    kept with the traceback that one had. *)
Inductive exception : Type :=
  Exc { exc_type : exc_class;
        exc_msg : string;
        exc_context : option (exception * traceback) }.

(** [cls(msg)], a new exception. *)
Definition new (cls : exc_class) (msg : string) : exception :=
  {| exc_type := cls; exc_msg := msg; exc_context := None |}.

(** The same exception with [context] as its [__context__]. *)
Definition set_context (e : exception) (context : exception * traceback)
    : exception :=
  {| exc_type := exc_type e; exc_msg := exc_msg e;
     exc_context := Some context |}.

(** [e] as it leaves code that ran while [handled] was being handled: the
    first exception raised there got [handled] as its context, and [e] is
    that exception or has it further down its chain of contexts. *)
Fixpoint chain_context (e : exception) (handled : exception * traceback)
    {struct e} : exception :=
  match e with
  | Exc cls msg None => Exc cls msg (Some handled)
  | Exc cls msg (Some (e', tb')) =>
      Exc cls msg (Some (chain_context e' handled, tb'))
  end.

(** [isinstance(e, classes)] for a tuple of classes: what
    [except classes:] tests. *)
Definition isinstance (e : exception) (classes : list exc_class) : bool :=
  existsb (issubclass (exc_type e)) classes.

(** Values: the fragment of Python objects the demonstration computes with;
    a [str] has one [ascii] per character (code points below 256). *)
Inductive value : Type :=
  | VNone
  | VBool (b : bool)
  | VInt (z : Z)
  | VFloat (f : float)
  | VStr (s : string)
  | VList (items : list value)
  | VTuple (items : list value).

Definition type_name (v : value) : string :=
  match v with
  | VNone => "NoneType"
  | VBool _ => "bool"
  | VInt _ => "int"
  | VFloat _ => "float"
  | VStr _ => "str"
  | VList _ => "list"
  | VTuple _ => "tuple"
  end.

Definition nl : string := String "010"%char EmptyString.
Definition dquote : string := String "034"%char EmptyString.

Definition str_of_nat (n : nat) : string :=
  NilEmpty.string_of_uint (Nat.to_uint n).

Definition format_frame (fr : frame) : string :=
  "  File " +:+ dquote +:+ fr_file fr +:+ dquote +:+ ", line "
    +:+ str_of_nat (fr_line fr) +:+ ", in " +:+ fr_name fr +:+ nl
    +:+ "    " +:+ fr_text fr +:+ nl.

Definition format_exception_only (e : exception) : string :=
  (if decide (exc_msg e = "") then class_name (exc_type e)
   else class_name (exc_type e) +:+ ": " +:+ exc_msg e) +:+ nl.

(** [traceback.format_exc()] for the exception being handled: the chain
    of contexts first, oldest at the top. *)
Fixpoint format_exc (e : exception) (tb : traceback) {struct e} : string :=
  match e with
  | Exc _ _ context =>
      match context with
      | Some (handled, handled_tb) =>
          format_exc handled handled_tb +:+ nl
            +:+ "During handling of the above exception, another exception occurred:"
            +:+ nl +:+ nl
      | None => ""
      end
  end
    +:+ "Traceback (most recent call last):" +:+ nl
    +:+ foldr (fun fr rest => format_frame fr +:+ rest)
              (format_exception_only e) tb.

(** *** Numbers and true division *)

Inductive number : Type := NInt (z : Z) | NFloat (f : float).

(** [bool] is a subclass of [int]; other values are not numbers. *)
Definition as_number (v : value) : option number :=
  match v with
  | VBool b => Some (NInt (if b then 1 else 0))
  | VInt z => Some (NInt z)
  | VFloat f => Some (NFloat f)
  | _ => None
  end.

(** [float(z)]: the nearest binary64 value, ties to even; [None] stands for
    the [OverflowError] of an integer beyond the range of a float. *)
Definition int_to_float (z : Z) : option float :=
  let f := SF2Prim (binary_normalize prec emax z 0 false) in
  if is_infinity f then None else Some f.

Definition sf_of_int (z : Z) : spec_float :=
  match z with
  | Z0 => S754_zero false
  | Zpos p => S754_finite false p 0
  | Zneg p => S754_finite true p 0
  end.

(** [int / int]: the exact quotient rounded once. *)
Definition long_true_divide (a b : Z) : float :=
  SF2Prim (SFdiv prec emax (sf_of_int a) (sf_of_int b)).

Definition number_to_float (n : number) : option float :=
  match n with
  | NInt z => int_to_float z
  | NFloat f => Some f
  end.

(** [x / y].  Both operands of a float division are converted before the
    divisor is compared with zero. *)
Definition truediv (x y : value) : exception + value :=
  match as_number x, as_number y with
  | Some (NInt a), Some (NInt b) =>
      if (b =? 0)%Z then inl (new ZeroDivisionError "division by zero")
      else
        let q := long_true_divide a b in
        if is_infinity q then
          inl (new OverflowError "integer division result too large for a float")
        else inr (VFloat q)
  | Some a, Some b =>
      match number_to_float a, number_to_float b with
      | Some fa, Some fb =>
          if (fb =? 0)%float then
            inl (new ZeroDivisionError "float division by zero")
          else inr (VFloat (fa / fb))
      | _, _ => inl (new OverflowError "int too large to convert to float")
      end
  | _, _ =>
      inl (new TypeError
             ("unsupported operand type(s) for /: '" +:+ type_name x
                +:+ "' and '" +:+ type_name y +:+ "'"))
  end.

(** [iter(v)] run to exhaustion; [None] when [v] is not iterable.  Among
    the values above only lists, tuples and strings are iterable; iterating
    them has no effect and cannot fail. *)
Definition py_iter (v : value) : option (list value) :=
  match v with
  | VList items | VTuple items => Some items
  | VStr s => Some ((fun c => VStr (String c EmptyString)) <$> list_ascii_of_string s)
  | _ => None
  end.

(** *** The host: files and what happens to them *)

(** What a path can denote, as far as [open(path, "w")] and a write can
    tell; a path absent from the map does not exist yet and can be created. *)
Inductive node : Type :=
  | RegularFile (content : string)
  | ReadOnlyFile (content : string)
  | Directory
  | FullDevice.

#[global] Instance node_eq_dec : EqDecision node.
Proof. solve_decision. Defined.

(** What has happened so far: operations on files, and objects handed to
    [print]. *)
Inductive event : Type :=
  | EvOpen (path : string)
  | EvWrite (path data : string)
  | EvClose (path : string)
  | EvPrint (v : value).

Record world : Type :=
  World { files : gmap string node; events : list event }.

(** Whether, by the history, the file [f] has been given text since it was
    last opened and has not been closed since. *)
Definition unflushed (f : string) (history : list event) : bool :=
  foldl
    (fun pending ev =>
       match ev with
       | EvOpen path | EvClose path =>
           if decide (path = f) then false else pending
       | EvWrite path data =>
           if decide (path = f) then pending || negb (bool_decide (data = ""))
           else pending
       | EvPrint _ => pending
       end)
    false history.

(** *** Computations: state passing with exceptions *)

Inductive outcome (A : Type) : Type :=
  | Returned (a : A)
  | Raised (e : exception) (tb : traceback).
Arguments Returned {A} a.
Arguments Raised {A} e tb.

Definition M (A : Type) : Type := world -> outcome A * world.

Definition ret {A} (a : A) : M A := fun w => (Returned a, w).

Definition raise {A} (e : exception) : M A := fun w => (Raised e [], w).

Definition bind {A B} (m : M A) (k : A -> M B) : M B :=
  fun w =>
    match m w with
    | (Returned a, w') => k a w'
    | (Raised e tb, w') => (Raised e tb, w')
    end.

Declare Scope py_scope.
Delimit Scope py_scope with py.
Notation "x <- m ;; k" := (bind m (fun x => k))
  (at level 100, m at next level, right associativity) : py_scope.
Notation "m ;;; k" := (bind m (fun _ => k))
  (at level 100, right associativity) : py_scope.

(** An exception that leaves the code of a frame gets that frame's entry in
    front of its traceback. *)
Definition in_frame {A} (fr : frame) (m : M A) : M A :=
  fun w =>
    match m w with
    | (Returned a, w') => (Returned a, w')
    | (Raised e tb, w') => (Raised e (fr :: tb), w')
    end.

(** Code that runs while [handled] is being handled: what it raises has
    [handled] as its context. *)
Definition handling {A} (handled : exception * traceback) (m : M A) : M A :=
  fun w =>
    match m w with
    | (Returned a, w') => (Returned a, w')
    | (Raised e tb, w') => (Raised (chain_context e handled) tb, w')
    end.

(** [try: body  except classes: handler]. *)
Definition try_except {A} (body : M A) (classes : list exc_class)
    (handler : exception -> traceback -> M A) : M A :=
  fun w =>
    match body w with
    | (Returned a, w') => (Returned a, w')
    | (Raised e tb, w') =>
        if isinstance e classes then handling (e, tb) (handler e tb) w'
        else (Raised e tb, w')
    end.

(** [try: body  finally: cleanup]. *)
Definition finally {A} (body : M A) (cleanup : M unit) : M A :=
  fun w =>
    match body w with
    | (Returned a, w') =>
        match cleanup w' with
        | (Returned _, w'') => (Returned a, w'')
        | (Raised e tb, w'') => (Raised e tb, w'')
        end
    | (Raised e tb, w') =>
        match cleanup w' with
        | (Returned _, w'') => (Raised e tb, w'')
        | (Raised e' tb', w'') => (Raised e' tb', w'')
        end
    end.

Definition lift_result (r : exception + value) : M value :=
  match r with
  | inl e => raise e
  | inr v => ret v
  end.

(** *** Files *)

(** [open(path, "w")]: creates or truncates; the handle is the path. *)
Definition open_w (path : string) : M string :=
  fun w =>
    if decide (path = "") then
      (Raised (new FileNotFoundError
                 "[Errno 2] No such file or directory: ''") [], w)
    else
      match files w !! path with
      | Some Directory =>
          (Raised (new IsADirectoryError
                     ("[Errno 21] Is a directory: '" +:+ path +:+ "'")) [], w)
      | Some (ReadOnlyFile _) =>
          (Raised (new PermissionError
                     ("[Errno 13] Permission denied: '" +:+ path +:+ "'")) [], w)
      | Some FullDevice =>
          (Returned path,
           {| files := files w; events := events w ++ [EvOpen path] |})
      | Some (RegularFile _) | None =>
          (Returned path,
           {| files := <[path := RegularFile ""]> (files w);
              events := events w ++ [EvOpen path] |})
      end.

(** [f.write(data)] for text that fits the buffer of the file, as the
    tracebacks written here do: the call succeeds, also on a full device,
    where the text waits in the buffer until the file is closed.  For a
    regular file the text is put in the file at once, which after the close
    comes to the same. *)
Definition write (f : string) (data : string) : M unit :=
  fun w =>
    match files w !! f with
    | Some (RegularFile content) =>
        (Returned tt,
         {| files := <[f := RegularFile (content +:+ data)]> (files w);
            events := events w ++ [EvWrite f data] |})
    | Some FullDevice =>
        (Returned tt,
         {| files := files w; events := events w ++ [EvWrite f data] |})
    | _ => (Raised (new OSError "[Errno 9] Bad file descriptor") [], w)
    end.

Definition no_space : exception :=
  new OSError "[Errno 28] No space left on device".

(** [f.close()]: what waits in the buffer is flushed.  On a full device the
    flush of the text layer fails, the close of the layer below fails again,
    and the second error is raised with the first as its context; the file
    is closed all the same. *)
Definition close (f : string) : M unit :=
  fun w =>
    let closed :=
      {| files := files w; events := events w ++ [EvClose f] |} in
    match files w !! f with
    | Some FullDevice =>
        if unflushed f (events w)
        then (Raised (set_context no_space (no_space, [])) [], closed)
        else (Returned tt, closed)
    | _ => (Returned tt, closed)
    end.

(** [with open(path, "w") as f: body], written on line [line] of [fr]'s
    function: the file is closed on every way out of [body]. *)
Definition with_open_w {A} (here : nat -> frame) (line : nat) (path : string)
    (body : string -> M A) : M A :=
  (f <- in_frame (here line) (open_w path) ;;
   finally (body f) (in_frame (here line) (close f)))%py.

(** [traceback.print_exc(file=f)] while [e] with traceback [tb] is being
    handled. *)
Definition print_exc (e : exception) (tb : traceback) (f : string) : M unit :=
  write f (format_exc e tb).

(** [print(v)]. *)
Definition print (v : value) : M unit :=
  fun w =>
    (Returned tt, {| files := files w; events := events w ++ [EvPrint v] |}).

(** *** functools.reduce *)

Fixpoint reduce_from (function : value -> value -> M value) (acc : value)
    (rest : list value) : M value :=
  match rest with
  | [] => ret acc
  | y :: rest' => (acc' <- function acc y ;; reduce_from function acc' rest')%py
  end.

(** [reduce(function, iterable)] without an initial value. *)
Definition reduce (function : value -> value -> M value) (iterable : value)
    : M value :=
  match py_iter iterable with
  | None => raise (new TypeError "reduce() arg 2 must support iteration")
  | Some [] =>
      raise (new TypeError "reduce() of empty iterable with no initial value")
  | Some (x :: rest) => reduce_from function x rest
  end.

(** *** Calls *)

Record call_args : Type :=
  Args { positional : list value; keywords : list (string * value) }.

Definition callable : Type := call_args -> M value.

End Py.

(** ** ExceptionHandlerDecorator.py *)

Import Py.
Local Open Scope py_scope.

Definition source_file : string := "ExceptionHandlerDecorator.py".

(** The text of the lines that can show up in a traceback. *)
Definition source_line (line : nat) : string :=
  match line with
  | 35 => "return func(*args, **kwargs)"
  | 37 => "with open(log_file, " +:+ dquote +:+ "w" +:+ dquote +:+ ") as f:"
  | 38 => "traceback.print_exc(file=f)"
  | 73 => "return reduce(lambda x, y: x / y, num_array)"
  | 87 => "print(div_array([10, 2, 2]))"
  | 89 => "print(div_array([" +:+ dquote +:+ "1" +:+ dquote +:+ ", 2]))"
  | 91 => "print(div_array([10, 0]))"
  | 93 => "print(div_array(1))"
  | _ => ""
  end.

(** The traceback entry of the function [name] stopped at [line]. *)
Definition here (name : string) (line : nat) : frame :=
  {| fr_file := source_file; fr_line := line; fr_name := name;
     fr_text := source_line line |}.

Module ExceptionHandler.

(** [class ExceptionHandler]: the two attributes [__init__] stores. *)
Record t : Type := __init__ { return_message : string; log_file : string }.

(** Lines 32-39, with the variables the closure captures as parameters. *)
Definition wrapper (exceptions : list exc_class)
    (return_message log_file : string) (func : callable) : callable :=
  fun args =>
    try_except (in_frame (here "wrapper" 35) (func args)) exceptions
      (fun e tb =>
         with_open_w (here "wrapper") 37 log_file
           (fun f => in_frame (here "wrapper" 38) (print_exc e tb f)) ;;;
         ret (VStr return_message)).

(** Lines 31-41. *)
Definition decorator (exceptions : list exc_class)
    (return_message log_file : string) : callable -> callable :=
  fun func => wrapper exceptions return_message log_file func.

(** Lines 11-43; an omitted argument is [None]. *)
Definition exception_handler_decorator (self : t)
    (exceptions : list exc_class) (return_message log_file : option string)
    : callable -> callable :=
  let log_file :=
    match log_file with
    | None => ExceptionHandler.log_file self
    | Some log_file => log_file
    end in
  let return_message :=
    match return_message with
    | None => ExceptionHandler.return_message self
    | Some return_message => return_message
    end in
  decorator exceptions return_message log_file.

End ExceptionHandler.

Import ExceptionHandler.

(** *** The demonstration: [example], lines 46-93 *)

Definition exc_handler : ExceptionHandler.t :=
  __init__ "Unexpected error, seek help." "default_error_log.txt".

Definition div_array_qualname : string := "example.<locals>.div_array()".

(** Binding the arguments of a call to the one parameter [num_array]. *)
Definition bind_num_array (args : call_args) : exception + value :=
  match keywords args, positional args with
  | [], [v] => inr v
  | [], [] =>
      inl (new TypeError
             (div_array_qualname
                +:+ " missing 1 required positional argument: 'num_array'"))
  | [], pos =>
      inl (new TypeError
             (div_array_qualname +:+ " takes 1 positional argument but "
                +:+ str_of_nat (length pos) +:+ " were given"))
  | (k, v) :: kws, pos =>
      if decide (k = "num_array") then
        match pos, kws with
        | [], [] => inr v
        | [], (k', _) :: _ =>
            inl (new TypeError
                   (div_array_qualname
                      +:+ " got an unexpected keyword argument '" +:+ k' +:+ "'"))
        | _ :: _, _ =>
            inl (new TypeError
                   (div_array_qualname
                      +:+ " got multiple values for argument 'num_array'"))
        end
      else
        inl (new TypeError
               (div_array_qualname
                  +:+ " got an unexpected keyword argument '" +:+ k +:+ "'"))
  end.

(** Line 73, [lambda x, y: x / y]. *)
Definition div_lambda (x y : value) : M value :=
  in_frame (here "<lambda>" 73) (lift_result (truediv x y)).

(** Lines 66-73, the function before it is decorated. *)
Definition div_array_body : callable :=
  fun args =>
    match bind_num_array args with
    | inl e => raise e
    | inr num_array =>
        in_frame (here "div_array" 73) (reduce div_lambda num_array)
    end.

(** Lines 55-66: the decorator nearest to [def] is applied first. *)
Definition div_array : callable :=
  exception_handler_decorator exc_handler [Exception] None None
    (exception_handler_decorator exc_handler [TypeError]
       (Some "Type Error ocurred! Please check the data types and try again.")
       (Some "typeerror.txt")
       (exception_handler_decorator exc_handler [ZeroDivisionError]
          (Some "Division by 0 is impossible!")
          (Some "zerodivisionerror.txt")
          div_array_body)).

Definition call1 (v : value) : call_args :=
  {| positional := [v]; keywords := [] |}.

(** Lines 86-93: what [example] does once [div_array] is defined. *)
Definition example : M value :=
  print (VStr "No Error:") ;;;
  r <- in_frame (here "example" 87)
         (div_array (call1 (VList [VInt 10; VInt 2; VInt 2]))) ;;
  print r ;;;
  print (VStr "Error Catched by TypeError:") ;;;
  r <- in_frame (here "example" 89)
         (div_array (call1 (VList [VStr "1"; VInt 2]))) ;;
  print r ;;;
  print (VStr "Error Catched by ZeroDivisionError:") ;;;
  r <- in_frame (here "example" 91)
         (div_array (call1 (VList [VInt 10; VInt 0]))) ;;
  print r ;;;
  print (VStr "Error Catched by TypeError:") ;;;
  r <- in_frame (here "example" 93) (div_array (call1 (VInt 1))) ;;
  print r ;;;
  ret VNone.

(** ** Vocabulary of the statements *)

(** *** Stacks of decorators *)

(** One [@exc_handler.exception_handler_decorator(...)] line. *)
Record layer : Type :=
  Layer { layer_exceptions : list exc_class;
          layer_return_message : option string;
          layer_log_file : option string }.

Definition apply_layer (self : ExceptionHandler.t) (f : callable) (l : layer)
    : callable :=
  exception_handler_decorator self (layer_exceptions l)
    (layer_return_message l) (layer_log_file l) f.

(** The callable obtained from [f] under the decorators [layers], listed
    from the one nearest to [def] outwards. *)
Definition decorate (self : ExceptionHandler.t) (layers : list layer)
    (f : callable) : callable :=
  foldl (apply_layer self) f layers.

(** The message and the file a layer ends up using. *)
Definition layer_message (self : ExceptionHandler.t) (l : layer) : string :=
  default (ExceptionHandler.return_message self) (layer_return_message l).

Definition layer_target (self : ExceptionHandler.t) (l : layer) : string :=
  default (ExceptionHandler.log_file self) (layer_log_file l).

(** *** Properties of the host used in the statements *)

(** [open(path, "w")] followed by a write succeeds in [w]. *)
Definition can_write (w : world) (path : string) : bool :=
  bool_decide (path ≠ "") &&
  match files w !! path with
  | None | Some (RegularFile _) => true
  | Some (ReadOnlyFile _) | Some Directory | Some FullDevice => false
  end.

(** [w] after [path] has been opened for writing, given [data] as its whole
    content, and closed. *)
Definition logged (path data : string) (w : world) : world :=
  {| files := <[path := RegularFile data]> (files w);
     events := events w ++ [EvOpen path; EvWrite path data; EvClose path] |}.

(** The handler of [wrapper]: lines 37-38. *)
Definition save_trace (log_file : string) (e : exception) (tb : traceback)
    : M unit :=
  with_open_w (here "wrapper") 37 log_file
    (fun f => in_frame (here "wrapper" 38) (print_exc e tb f)).

(** The three decorator lines of [div_array]. *)
Definition zero_division_layer : layer :=
  Layer [ZeroDivisionError] (Some "Division by 0 is impossible!")
    (Some "zerodivisionerror.txt").

Definition type_error_layer : layer :=
  Layer [TypeError]
    (Some "Type Error ocurred! Please check the data types and try again.")
    (Some "typeerror.txt").

Definition catch_all_layer : layer := Layer [Exception] None None.

(** A host with no files and no history. *)
Definition empty_world : world := {| files := ∅; events := [] |}.

(** A host on which [typeerror.txt] is a directory. *)
Definition directory_world : world :=
  {| files := {[ "typeerror.txt" := Directory ]}; events := [] |}.



(** A host on which [typeerror.txt] is a device without space left. *)
Definition full_world : world :=
  {| files := {[ "typeerror.txt" := FullDevice ]}; events := [] |}.

(** A host on which the diagnostic file already holds an older text. *)
Definition stale_world : world :=
  {| files := {[ "zerodivisionerror.txt" := RegularFile "an older trace" ]};
     events := [] |}.

(** What [print] has been given, in order. *)
Definition printed (w : world) : list value :=
  omap (fun ev => match ev with EvPrint v => Some v | _ => None end) (events w).

(** *** The division on its own *)

(** [((x / y1) / y2) / ...] as a value or the first error met: what
    [reduce(lambda x, y: x / y, ...)] computes once the host is left out. *)
Fixpoint quotient_from (acc : value) (rest : list value) : exception + value :=
  match rest with
  | [] => inr acc
  | y :: rest' =>
      match truediv acc y with
      | inl e => inl e
      | inr q => quotient_from q rest'
      end
  end.

(** What [div_array_body] returns or raises for the argument [num_array]. *)
Definition division_outcome (num_array : value) : outcome value :=
  match py_iter num_array with
  | None =>
      Raised (new TypeError "reduce() arg 2 must support iteration")
        [here "div_array" 73]
  | Some [] =>
      Raised (new TypeError "reduce() of empty iterable with no initial value")
        [here "div_array" 73]
  | Some (x :: rest) =>
      match quotient_from x rest with
      | inl e => Raised e [here "div_array" 73; here "<lambda>" 73]
      | inr q => Returned q
      end
  end.

(** *** Hosts that answer alike *)

(** What [open(path, "w")] followed by a write makes of a path. *)
Inductive access : Type := Writable | Denied | IsDirectory | NoSpace.

#[global] Instance access_eq_dec : EqDecision access.
Proof. solve_decision. Defined.

Definition access_of (n : option node) : access :=
  match n with
  | None | Some (RegularFile _) => Writable
  | Some (ReadOnlyFile _) => Denied
  | Some Directory => IsDirectory
  | Some FullDevice => NoSpace
  end.

(** Two hosts on which every path is as accessible on one as on the other. *)
Definition same_access (w1 w2 : world) : Prop :=
  ∀ path, access_of (files w1 !! path) = access_of (files w2 !! path).

(** A call that keeps every path as accessible as it was, and whose outcome
    depends on the host only through that. *)
Definition settled (f : callable) (args : call_args) : Prop :=
  (∀ w, same_access w ((f args w).2))
  ∧ (∀ w1 w2, same_access w1 w2 → (f args w1).1 = (f args w2).1).

(** [handled] is the context of [e], or the context of its context, and
    so on. *)
Fixpoint in_context_chain (handled e : exception) {struct e} : Prop :=
  match e with
  | Exc _ _ None => False
  | Exc _ _ (Some (e', _)) => e' = handled ∨ in_context_chain handled e'
  end.

(** A call that raises, if anything, an instance of [Exception]. *)
Definition ordinary (f : callable) (args : call_args) (w : world) : Prop :=
  ∀ e tb w', f args w = (Raised e tb, w') →
             issubclass (exc_type e) Exception = true.

(** ** Verification *)

(** Membership in an explicit list of distinct constructors. *)
Ltac refute_elem_of H :=
  repeat (apply elem_of_cons in H as [H|H]; [discriminate H|]);
  apply elem_of_nil in H; exact H.

Section Host.

Implicit Types (w : world) (path data : string).

Lemma world_eq w1 w2 :
  files w1 = files w2 → events w1 = events w2 → w1 = w2.
Proof. destruct w1, w2; simpl; intros -> ->; reflexivity. Qed.

Lemma can_write_nonempty w path : can_write w path = true → path ≠ "".
Proof.
  unfold can_write. intros H%andb_prop. destruct H as [H _].
  by apply bool_decide_eq_true in H.
Qed.


Lemma can_write_same_node w1 w2 path :
  files w1 !! path = files w2 !! path → can_write w1 path = can_write w2 path.
Proof. unfold can_write. by intros ->. Qed.

Lemma append_nonempty (s1 s2 : string) : s2 ≠ "" → s1 +:+ s2 ≠ "".
Proof. destruct s1; [done | discriminate]. Qed.

(** A formatted traceback is never empty. *)
Lemma format_exc_nonempty e tb : format_exc e tb ≠ "".
Proof. destruct e as [cls msg context]. simpl. by apply append_nonempty. Qed.

(** After an [open] and a [write] of some text the file has text to
    flush. *)
Lemma unflushed_written path data (history : list event) :
  data ≠ "" →
  unflushed path ((history ++ [EvOpen path]) ++ [EvWrite path data]) = true.
Proof.
  intros Hdata. unfold unflushed. rewrite !foldl_app. simpl.
  rewrite !decide_True by done. simpl.
  by rewrite bool_decide_eq_false_2.
Qed.

(** Opening, writing and closing a writable path. *)
Lemma save_trace_ok w path e tb :
  can_write w path = true →
  save_trace path e tb w = (Returned tt, logged path (format_exc e tb) w).
Proof.
  intros Hw. pose proof (can_write_nonempty _ _ Hw) as Hne.
  unfold can_write in Hw. apply andb_prop in Hw as [_ Hnode].
  unfold save_trace, with_open_w, bind, finally, in_frame, print_exc,
    open_w, write, close.
  destruct (decide (path = "")) as [|_]; [done|].
  destruct (files w !! path) as [[c| | |]|] eqn:Hlk; try done; simpl;
    rewrite lookup_insert_eq; simpl; rewrite lookup_insert_eq; simpl;
    f_equal; apply world_eq; simpl;
    try (by rewrite insert_insert_eq);
    by rewrite <- !app_assoc.
Qed.

(** When the path cannot be written, the handler raises a subclass of
    [OSError] from within [wrapper] and leaves every file as it was. *)
Lemma save_trace_fails w path e tb :
  can_write w path = false →
  ∃ err line w',
    save_trace path e tb w = (Raised err [here "wrapper" line], w')
    ∧ issubclass (exc_type err) OSError = true
    ∧ files w' = files w.
Proof.
  intros Hw. unfold can_write in Hw.
  unfold save_trace, with_open_w, bind, finally, in_frame, print_exc,
    open_w, write, close.
  destruct (decide (path = "")) as [->|Hne].
  { by eexists _, 37, _. }
  rewrite bool_decide_eq_true_2 in Hw by done. simpl in Hw.
  destruct (files w !! path) as [[c| | |]|] eqn:Hlk; try done; simpl.
  - by eexists _, 37, _.
  - by eexists _, 37, _.
  - rewrite Hlk. simpl. rewrite Hlk.
    rewrite unflushed_written by apply format_exc_nonempty.
    by eexists _, 37, _.
Qed.


End Host.



Lemma exc_type_chain_context (e : exception) (handled : exception * traceback) :
  exc_type (chain_context e handled) = exc_type e.
Proof. by destruct e as [cls msg [[e' tb']|]]. Qed.

(** What was being handled is in the chain of contexts of what the handler
    raises. *)
Fixpoint chain_context_in_chain (err e : exception) (tb : traceback)
    {struct err} : in_context_chain e (chain_context err (e, tb)).
Proof.
  destruct err as [cls msg [[err' tb']|]]; simpl.
  - right. apply chain_context_in_chain.
  - by left.
Qed.

Section Guard.

Variables (exceptions : list exc_class) (return_message log_file : string).
Variable func : callable.

Implicit Types (args : call_args) (w : world) (e : exception) (tb : traceback).

Local Abbreviation guard := (wrapper exceptions return_message log_file func).

(** The three ways through [wrapper] (lines 34-39). *)
Lemma wrapper_returned args w v w' :
  func args w = (Returned v, w') → guard args w = (Returned v, w').
Proof.
  intros Hf. unfold wrapper, try_except, in_frame. by rewrite Hf.
Qed.

Lemma wrapper_unmatched args w e tb w' :
  func args w = (Raised e tb, w') →
  isinstance e exceptions = false →
  guard args w = (Raised e (here "wrapper" 35 :: tb), w').
Proof.
  intros Hf He. unfold wrapper, try_except, in_frame.
  by rewrite Hf, He.
Qed.

Lemma wrapper_matched args w e tb w' :
  func args w = (Raised e tb, w') →
  isinstance e exceptions = true →
  guard args w =
    handling (e, here "wrapper" 35 :: tb)
      (save_trace log_file e (here "wrapper" 35 :: tb) ;;;
       ret (VStr return_message))%py w'.
Proof.
  intros Hf He. unfold wrapper, try_except, in_frame.
  by rewrite Hf, He.
Qed.

Lemma wrapper_handled args w e tb w' :
  func args w = (Raised e tb, w') →
  isinstance e exceptions = true →
  can_write w' log_file = true →
  guard args w =
    (Returned (VStr return_message),
     logged log_file (format_exc e (here "wrapper" 35 :: tb)) w').
Proof.
  intros Hf He Hw. rewrite (wrapper_matched _ _ _ _ _ Hf He).
  unfold handling, bind. by rewrite save_trace_ok.
Qed.

Lemma wrapper_write_error args w e tb w' :
  func args w = (Raised e tb, w') →
  isinstance e exceptions = true →
  can_write w' log_file = false →
  ∃ err line w'',
    guard args w = (Raised err [here "wrapper" line], w'')
    ∧ issubclass (exc_type err) OSError = true
    ∧ in_context_chain e err
    ∧ files w'' = files w'.
Proof.
  intros Hf He Hw. rewrite (wrapper_matched _ _ _ _ _ Hf He).
  destruct (save_trace_fails w' log_file e (here "wrapper" 35 :: tb) Hw)
    as (err & line & w'' & Hs & Hsub & Hfiles).
  exists (chain_context err (e, here "wrapper" 35 :: tb)), line, w''.
  unfold handling, bind. rewrite Hs, exc_type_chain_context.
  repeat split; try done. apply chain_context_in_chain.
Qed.


End Guard.

(** The class of an exception is one of its own base classes, so a class
    listed in an [except] clause is caught. *)
Lemma issubclass_refl (cls : exc_class) : issubclass cls cls = true.
Proof.
  apply bool_decide_eq_true. destruct cls; simpl; apply list_elem_of_here.
Qed.

Lemma isinstance_listed (e : exception) (classes : list exc_class) :
  exc_type e ∈ classes → isinstance e classes = true.
Proof.
  intros Hin. unfold isinstance. apply existsb_exists.
  exists (exc_type e). split; [by apply list_elem_of_In | apply issubclass_refl].
Qed.

Lemma isinstance_nil (e : exception) : isinstance e [] = false.
Proof. reflexivity. Qed.

(** [exception_handler_decorator] is [wrapper] at the resolved message and
    file. *)
Lemma exception_handler_decorator_unfold self exceptions rm lf f :
  exception_handler_decorator self exceptions rm lf f =
  wrapper exceptions (default (ExceptionHandler.return_message self) rm)
    (default (ExceptionHandler.log_file self) lf) f.
Proof. by destruct rm, lf. Qed.

Section Stack.

Variable self : ExceptionHandler.t.

Implicit Types (layers : list layer) (f : callable).

Lemma decorate_app layers1 layers2 f :
  decorate self (layers1 ++ layers2) f =
  decorate self layers2 (decorate self layers1 f).
Proof. apply foldl_app. Qed.

Lemma apply_layer_unfold f l :
  apply_layer self f l =
  wrapper (layer_exceptions l) (layer_message self l) (layer_target self l) f.
Proof. apply exception_handler_decorator_unfold. Qed.

(** A result goes through every layer untouched. *)
Lemma decorate_returned layers : ∀ f args w v w',
  f args w = (Returned v, w') →
  decorate self layers f args w = (Returned v, w').
Proof.
  induction layers as [|l layers IH]; intros f args w v w' Hf; [done|].
  simpl. apply IH. rewrite apply_layer_unfold. by apply wrapper_returned.
Qed.

(** Layers that do not catch the exception pass it on, each adding its own
    entry to the traceback. *)
Lemma decorate_unmatched layers : ∀ f args w e tb w',
  f args w = (Raised e tb, w') →
  Forall (fun l => isinstance e (layer_exceptions l) = false) layers →
  decorate self layers f args w =
    (Raised e (replicate (length layers) (here "wrapper" 35) ++ tb), w').
Proof.
  induction layers as [|l layers IH]; intros f args w e tb w' Hf Hall; [done|].
  apply Forall_cons in Hall as [Hl Hall]. simpl.
  rewrite (IH _ args w e (here "wrapper" 35 :: tb) w'); [|  |done].
  - by rewrite cons_middle, app_assoc, <- replicate_S_end.
  - rewrite apply_layer_unfold. by apply wrapper_unmatched.
Qed.

(** The first layer that catches the exception settles the call. *)
Lemma decorate_first_match inner l outer f args w e tb w' :
  f args w = (Raised e tb, w') →
  Forall (fun l' => isinstance e (layer_exceptions l') = false) inner →
  isinstance e (layer_exceptions l) = true →
  can_write w' (layer_target self l) = true →
  decorate self (inner ++ l :: outer) f args w =
    (Returned (VStr (layer_message self l)),
     logged (layer_target self l)
       (format_exc e
          (replicate (S (length inner)) (here "wrapper" 35) ++ tb))
       w').
Proof.
  intros Hf Hinner Hl Hw.
  rewrite decorate_app. change (l :: outer) with ([l] ++ outer).
  rewrite decorate_app. apply decorate_returned. simpl.
  rewrite apply_layer_unfold.
  rewrite (wrapper_handled _ _ _ _ args w e
             (replicate (length inner) (here "wrapper" 35) ++ tb) w');
    [done| |done|done].
  by apply decorate_unmatched.
Qed.

End Stack.

(** [div_array] is [div_array_body] under its three decorators. *)
Lemma div_array_layers :
  div_array =
  decorate exc_handler [zero_division_layer; type_error_layer; catch_all_layer]
    div_array_body.
Proof. reflexivity. Qed.

(** What the four calls of [example] print on a host without files: the
    result of the division, then the messages of the [TypeError], the
    [ZeroDivisionError] and again the [TypeError] layer, as the labels
    printed before them announce. *)
Lemma example_prints :
  (example empty_world).1 = Returned VNone
  ∧ printed (example empty_world).2 =
      [VStr "No Error:"; VFloat 2.5;
       VStr "Error Catched by TypeError:";
       VStr "Type Error ocurred! Please check the data types and try again.";
       VStr "Error Catched by ZeroDivisionError:";
       VStr "Division by 0 is impossible!";
       VStr "Error Catched by TypeError:";
       VStr "Type Error ocurred! Please check the data types and try again."].
Proof. split; reflexivity. Qed.

(** An [except] clause lets an exception through exactly when none of the
    listed classes is among the classes of the exception. *)
Lemma isinstance_false (e : exception) (classes : list exc_class) :
  isinstance e classes = false ↔
  ∀ cls, cls ∈ classes → cls ∉ mro (exc_type e).
Proof.
  unfold isinstance, issubclass. split.
  - intros Hex cls Hin Hmro.
    assert (existsb (fun parent => bool_decide (parent ∈ mro (exc_type e)))
              classes = true) as Habs; [|congruence].
    apply existsb_exists. exists cls.
    split; [by apply list_elem_of_In | by apply bool_decide_eq_true].
  - intros Hall. apply not_true_is_false. intros Hex.
    apply existsb_exists in Hex as (cls & Hin & Hsub).
    apply bool_decide_eq_true in Hsub.
    apply (Hall cls); [by apply list_elem_of_In | done].
Qed.

(** ** The claims *)

(** C1, as stated, fails: on a host where [typeerror.txt] is a directory,
    a guard made for [(TypeError,)] with that diagnostic file catches the
    [TypeError] of [div_array_body(1)], whose class is a member of the
    tuple, but cannot open the file: the call raises [IsADirectoryError]
    and does not return the message. *)
Lemma C1_counterexample :
  let e := new TypeError "reduce() arg 2 must support iteration" in
  let tb := [here "div_array" 73] in
  let g :=
    exception_handler_decorator exc_handler [TypeError] None
      (Some "typeerror.txt") div_array_body in
  div_array_body (call1 (VInt 1)) directory_world = (Raised e tb, directory_world)
  ∧ exc_type e ∈ [TypeError]
  ∧ g (call1 (VInt 1)) directory_world =
      (Raised
         (set_context
            (new IsADirectoryError "[Errno 21] Is a directory: 'typeerror.txt'")
            (e, here "wrapper" 35 :: tb))
         [here "wrapper" 37],
       directory_world).
Proof.
  split; [reflexivity|]. split; [apply list_elem_of_here | reflexivity].
Qed.

(** C1, amended. When the call to [f] raises an exception whose class is
    listed in the guard's classes, and the diagnostic file can be opened and
    written, the guard opens the configured file for writing, which empties
    it, writes the formatted traceback of the exception, closes the file,
    and returns the configured message: the result is a value, the
    exception is not raised to the caller. *)
Theorem C1_matched_exception_is_handled
    (self : ExceptionHandler.t) (exceptions : list exc_class)
    (rm lf : option string) (f : callable) (args : call_args)
    (w w' : world) (e : exception) (tb : traceback) :
  let target := default (ExceptionHandler.log_file self) lf in
  let trace := format_exc e (here "wrapper" 35 :: tb) in
  f args w = (Raised e tb, w') →
  exc_type e ∈ exceptions →
  can_write w' target = true →
  ∃ w'',
    exception_handler_decorator self exceptions rm lf f args w =
      (Returned (VStr (default (ExceptionHandler.return_message self) rm)), w'')
    ∧ events w'' =
        events w' ++ [EvOpen target; EvWrite target trace; EvClose target]
    ∧ files w'' = <[target := RegularFile trace]> (files w').
Proof.
  intros target trace Hf Hin Hw.
  exists (logged target trace w').
  rewrite exception_handler_decorator_unfold.
  split; [|done].
  apply wrapper_handled; [done| |done].
  by apply isinstance_listed.
Qed.

Lemma C1_witness :
  ∃ w'',
    exception_handler_decorator exc_handler [ZeroDivisionError]
      (Some "Division by 0 is impossible!") (Some "zerodivisionerror.txt")
      div_array_body (call1 (VList [VInt 10; VInt 0])) empty_world =
      (Returned (VStr "Division by 0 is impossible!"), w'')
    ∧ events w'' =
        [EvOpen "zerodivisionerror.txt";
         EvWrite "zerodivisionerror.txt"
           (format_exc (new ZeroDivisionError "division by zero")
              [here "wrapper" 35; here "div_array" 73; here "<lambda>" 73]);
         EvClose "zerodivisionerror.txt"]
    ∧ files w'' =
        {[ "zerodivisionerror.txt" :=
             RegularFile
               (format_exc (new ZeroDivisionError "division by zero")
                  [here "wrapper" 35; here "div_array" 73;
                   here "<lambda>" 73]) ]}.
Proof.
  apply (C1_matched_exception_is_handled exc_handler [ZeroDivisionError]
           (Some "Division by 0 is impossible!") (Some "zerodivisionerror.txt")
           div_array_body (call1 (VList [VInt 10; VInt 0]))
           empty_world empty_world
           (new ZeroDivisionError "division by zero")
           [here "div_array" 73; here "<lambda>" 73]).
  - reflexivity.
  - apply list_elem_of_here.
  - reflexivity.
Defined.

(** C2, as stated, fails: [ZeroDivisionError] is not a member of
    [(Exception,)], yet a guard made for [(Exception,)] catches the division
    by zero of [div_array_body([10, 0])], writes its diagnostic file and
    returns its message instead of letting the exception through. *)
Lemma C2_counterexample :
  let e := new ZeroDivisionError "division by zero" in
  let tb := [here "div_array" 73; here "<lambda>" 73] in
  let g :=
    exception_handler_decorator exc_handler [Exception] None None
      div_array_body in
  let args := call1 (VList [VInt 10; VInt 0]) in
  div_array_body args empty_world = (Raised e tb, empty_world)
  ∧ (exc_type e ∉ [Exception])
  ∧ (g args empty_world).1 = Returned (VStr "Unexpected error, seek help.")
  ∧ files ((g args empty_world).2) !! "default_error_log.txt" =
      Some (RegularFile (format_exc e (here "wrapper" 35 :: tb))).
Proof.
  split; [reflexivity|]. split; [|split; reflexivity].
  intros Hin. simpl in Hin. refute_elem_of Hin.
Qed.

(** C2, amended. When the call to [f] raises an exception and no listed
    class is the class of the exception or one of its base classes, the
    guard raises that same exception to its caller, writes nothing, and
    leaves the host as [f] left it. *)
Theorem C2_unmatched_exception_propagates
    (self : ExceptionHandler.t) (exceptions : list exc_class)
    (rm lf : option string) (f : callable) (args : call_args)
    (w w' : world) (e : exception) (tb : traceback) :
  f args w = (Raised e tb, w') →
  (∀ cls, cls ∈ exceptions → cls ∉ mro (exc_type e)) →
  exception_handler_decorator self exceptions rm lf f args w =
    (Raised e (here "wrapper" 35 :: tb), w').
Proof.
  intros Hf Hnone. rewrite exception_handler_decorator_unfold.
  apply wrapper_unmatched; [done|]. by apply isinstance_false.
Qed.

Lemma C2_witness :
  exception_handler_decorator exc_handler [ZeroDivisionError] None None
    div_array_body (call1 (VList [VStr "1"; VInt 2])) empty_world =
  (Raised (new TypeError "unsupported operand type(s) for /: 'str' and 'int'")
     [here "wrapper" 35; here "div_array" 73; here "<lambda>" 73],
   empty_world).
Proof.
  apply (C2_unmatched_exception_propagates exc_handler [ZeroDivisionError]
           None None div_array_body (call1 (VList [VStr "1"; VInt 2]))
           empty_world empty_world
           (new TypeError "unsupported operand type(s) for /: 'str' and 'int'")
           [here "div_array" 73; here "<lambda>" 73]).
  - reflexivity.
  - intros cls Hin Hmro. apply (proj1 (list_elem_of_singleton _ _)) in Hin.
    subst cls. simpl in Hmro. refute_elem_of Hmro.
Defined.

(** C3. When the call to [f] completes without raising, the guard returns
    exactly the result of [f] and leaves the host as [f] left it. *)
Theorem C3_result_passes_through
    (self : ExceptionHandler.t) (exceptions : list exc_class)
    (rm lf : option string) (f : callable) (args : call_args)
    (w w' : world) (v : value) :
  f args w = (Returned v, w') →
  exception_handler_decorator self exceptions rm lf f args w =
    (Returned v, w').
Proof.
  intros Hf. rewrite exception_handler_decorator_unfold.
  by apply wrapper_returned.
Qed.

Lemma C3_witness :
  exception_handler_decorator exc_handler [ZeroDivisionError] None None
    div_array_body (call1 (VList [VInt 10; VInt 2; VInt 2])) empty_world =
  (Returned (VFloat 2.5), empty_world).
Proof.
  apply (C3_result_passes_through exc_handler [ZeroDivisionError] None None
           div_array_body (call1 (VList [VInt 10; VInt 2; VInt 2]))
           empty_world empty_world (VFloat 2.5)).
  reflexivity.
Defined.

(** C4, as stated, fails: under an inner layer for [(Exception,)] and an
    outer layer for [(ZeroDivisionError,)], the innermost layer whose tuple
    contains [ZeroDivisionError] is the outer one, yet a division by zero is
    settled by the inner layer, with the inner layer's message. *)
Lemma C4_counterexample :
  let inner := catch_all_layer in
  let outer := zero_division_layer in
  let e := new ZeroDivisionError "division by zero" in
  let args := call1 (VList [VInt 10; VInt 0]) in
  div_array_body args empty_world =
    (Raised e [here "div_array" 73; here "<lambda>" 73], empty_world)
  ∧ (exc_type e ∉ layer_exceptions inner)
  ∧ exc_type e ∈ layer_exceptions outer
  ∧ layer_message exc_handler outer = "Division by 0 is impossible!"
  ∧ (decorate exc_handler [inner; outer] div_array_body args empty_world).1 =
      Returned (VStr "Unexpected error, seek help.").
Proof.
  split; [reflexivity|]. split; [|split; [|split]].
  - intros Hin. simpl in Hin. refute_elem_of Hin.
  - apply list_elem_of_here.
  - reflexivity.
  - reflexivity.
Qed.

(** C4, amended. In a stack of guards the exception meets the layers from
    the innermost outwards, and the first layer that lists the class of the
    exception or one of its base classes settles the call: if its diagnostic
    file can be written, the call returns that layer's message, the only
    file written is that layer's, and the layers outside it see a result.
    In particular [div_array([10, 0])] returns the message of the
    [ZeroDivisionError] layer when [zerodivisionerror.txt] can be written. *)
Theorem C4_first_matching_layer_wins
    (self : ExceptionHandler.t) (inner : list layer) (l : layer)
    (outer : list layer) (f : callable) (args : call_args)
    (w w' : world) (e : exception) (tb : traceback) (wz : world) :
  f args w = (Raised e tb, w') →
  Forall (fun l' => isinstance e (layer_exceptions l') = false) inner →
  isinstance e (layer_exceptions l) = true →
  can_write w' (layer_target self l) = true →
  can_write wz "zerodivisionerror.txt" = true →
  decorate self (inner ++ l :: outer) f args w =
    (Returned (VStr (layer_message self l)),
     logged (layer_target self l)
       (format_exc e (replicate (S (length inner)) (here "wrapper" 35) ++ tb))
       w')
  ∧ div_array (call1 (VList [VInt 10; VInt 0])) wz =
      (Returned (VStr "Division by 0 is impossible!"),
       logged "zerodivisionerror.txt"
         (format_exc (new ZeroDivisionError "division by zero")
            [here "wrapper" 35; here "div_array" 73; here "<lambda>" 73])
         wz).
Proof.
  intros Hf Hinner Hl Hw Hwz. split.
  - by apply decorate_first_match.
  - rewrite div_array_layers.
    by apply (decorate_first_match exc_handler [] zero_division_layer
                [type_error_layer; catch_all_layer] div_array_body
                (call1 (VList [VInt 10; VInt 0])) wz
                (new ZeroDivisionError "division by zero")
                [here "div_array" 73; here "<lambda>" 73] wz).
Qed.

Lemma C4_witness :
  decorate exc_handler
    ([zero_division_layer] ++ type_error_layer :: [catch_all_layer])
    div_array_body (call1 (VList [VStr "1"; VInt 2])) empty_world =
    (Returned
       (VStr "Type Error ocurred! Please check the data types and try again."),
     logged "typeerror.txt"
       (format_exc
          (new TypeError "unsupported operand type(s) for /: 'str' and 'int'")
          [here "wrapper" 35; here "wrapper" 35; here "div_array" 73;
           here "<lambda>" 73])
       empty_world)
  ∧ div_array (call1 (VList [VInt 10; VInt 0])) empty_world =
      (Returned (VStr "Division by 0 is impossible!"),
       logged "zerodivisionerror.txt"
         (format_exc (new ZeroDivisionError "division by zero")
            [here "wrapper" 35; here "div_array" 73; here "<lambda>" 73])
         empty_world).
Proof.
  apply (C4_first_matching_layer_wins exc_handler [zero_division_layer]
           type_error_layer [catch_all_layer] div_array_body
           (call1 (VList [VStr "1"; VInt 2])) empty_world empty_world
           (new TypeError "unsupported operand type(s) for /: 'str' and 'int'")
           [here "div_array" 73; here "<lambda>" 73] empty_world).
  - reflexivity.
  - repeat constructor.
  - reflexivity.
  - reflexivity.
  - reflexivity.
Defined.

(** C5, as stated, fails: [div_array(1)] raises [TypeError] and, on a host
    where every file can be written, returns the message of the [TypeError]
    layer, not the message of the outermost layer. *)
Lemma C5_counterexample :
  div_array_body (call1 (VInt 1)) empty_world =
    (Raised (new TypeError "reduce() arg 2 must support iteration")
       [here "div_array" 73], empty_world)
  ∧ (div_array (call1 (VInt 1)) empty_world).1 =
      Returned
        (VStr "Type Error ocurred! Please check the data types and try again.")
  ∧ (div_array (call1 (VInt 1)) empty_world).1 ≠
      Returned (VStr (ExceptionHandler.return_message exc_handler)).
Proof. split; [reflexivity|]. split; [reflexivity|discriminate]. Qed.

(** C5, amended. Given the single number [1], which is not iterable,
    [reduce] raises [TypeError]; the [ZeroDivisionError] layer lets it
    through and the [TypeError] layer catches it: when [typeerror.txt] can
    be written, [div_array(1)] returns the message of the [TypeError] layer
    and the only file written is [typeerror.txt]. *)
Theorem C5_non_iterable_is_a_type_error (w : world) :
  can_write w "typeerror.txt" = true →
  div_array_body (call1 (VInt 1)) w =
    (Raised (new TypeError "reduce() arg 2 must support iteration")
       [here "div_array" 73], w)
  ∧ div_array (call1 (VInt 1)) w =
      (Returned
         (VStr "Type Error ocurred! Please check the data types and try again."),
       logged "typeerror.txt"
         (format_exc (new TypeError "reduce() arg 2 must support iteration")
            [here "wrapper" 35; here "wrapper" 35; here "div_array" 73])
         w).
Proof.
  intros Hw. split; [reflexivity|].
  rewrite div_array_layers.
  apply (decorate_first_match exc_handler [zero_division_layer]
           type_error_layer [catch_all_layer] div_array_body
           (call1 (VInt 1)) w
           (new TypeError "reduce() arg 2 must support iteration")
           [here "div_array" 73] w); try done.
  by repeat constructor.
Qed.

Lemma C5_witness :
  div_array_body (call1 (VInt 1)) empty_world =
    (Raised (new TypeError "reduce() arg 2 must support iteration")
       [here "div_array" 73], empty_world)
  ∧ div_array (call1 (VInt 1)) empty_world =
      (Returned
         (VStr "Type Error ocurred! Please check the data types and try again."),
       logged "typeerror.txt"
         (format_exc (new TypeError "reduce() arg 2 must support iteration")
            [here "wrapper" 35; here "wrapper" 35; here "div_array" 73])
         empty_world).
Proof. apply (C5_non_iterable_is_a_type_error empty_world). reflexivity. Defined.



(** C7. When the decorated function completes without raising, no layer of
    the stack opens or writes anything: the call returns the function's
    result and the host (files and history) is as the function left it.  In
    particular [div_array([10, 2, 2])] returns [2.5] on every host and
    leaves it unchanged. *)
Theorem C7_no_write_without_exception
    (self : ExceptionHandler.t) (layers : list layer) (f : callable)
    (args : call_args) (w w' : world) (v : value) (wd : world) :
  f args w = (Returned v, w') →
  decorate self layers f args w = (Returned v, w')
  ∧ div_array (call1 (VList [VInt 10; VInt 2; VInt 2])) wd =
      (Returned (VFloat 2.5), wd).
Proof.
  intros Hf. split; [by apply decorate_returned | reflexivity].
Qed.

Lemma C7_witness :
  decorate exc_handler [zero_division_layer; type_error_layer; catch_all_layer]
    div_array_body (call1 (VTuple [VFloat 1; VBool true])) empty_world =
    (Returned (VFloat 1), empty_world)
  ∧ div_array (call1 (VList [VInt 10; VInt 2; VInt 2])) empty_world =
      (Returned (VFloat 2.5), empty_world).
Proof.
  apply (C7_no_write_without_exception exc_handler
           [zero_division_layer; type_error_layer; catch_all_layer]
           div_array_body (call1 (VTuple [VFloat 1; VBool true]))
           empty_world empty_world (VFloat 1) empty_world).
  reflexivity.
Defined.

(** C8. When a guard catches an exception but its diagnostic file cannot
    be opened or written, the failure of the write is raised to the caller
    of the guard: an [OSError] (or a subclass) coming out of [wrapper].  The
    call does not return the message, and no file has changed. *)
Theorem C8_write_failure_propagates
    (self : ExceptionHandler.t) (exceptions : list exc_class)
    (rm lf : option string) (f : callable) (args : call_args)
    (w w' : world) (e : exception) (tb : traceback) :
  f args w = (Raised e tb, w') →
  isinstance e exceptions = true →
  can_write w' (default (ExceptionHandler.log_file self) lf) = false →
  ∃ err line w'',
    exception_handler_decorator self exceptions rm lf f args w =
      (Raised err [here "wrapper" line], w'')
    ∧ issubclass (exc_type err) OSError = true
    ∧ files w'' = files w'.
Proof.
  intros Hf He Hw. rewrite exception_handler_decorator_unfold.
  destruct (wrapper_write_error exceptions
              (default (ExceptionHandler.return_message self) rm)
              (default (ExceptionHandler.log_file self) lf) f args w e tb w'
              Hf He Hw)
    as (err & line & w'' & Hg & Hsub & _ & Hfiles).
  by exists err, line, w''.
Qed.

Lemma C8_witness :
  ∃ err line w'',
    exception_handler_decorator exc_handler [TypeError] None
      (Some "typeerror.txt") div_array_body (call1 (VInt 1)) directory_world =
      (Raised err [here "wrapper" line], w'')
    ∧ issubclass (exc_type err) OSError = true
    ∧ files w'' = files directory_world.
Proof.
  apply (C8_write_failure_propagates exc_handler [TypeError] None
           (Some "typeerror.txt") div_array_body (call1 (VInt 1))
           directory_world directory_world
           (new TypeError "reduce() arg 2 must support iteration")
           [here "div_array" 73]).
  - reflexivity.
  - reflexivity.
  - reflexivity.
Defined.



(** C10. [exception_handler_decorator] makes a guard for the empty tuple
    like for any other, without a check, and that guard catches nothing:
    whatever exception the call to [f] raises, the guard raises that same
    exception to its caller and leaves the host as [f] left it. *)
Theorem C10_empty_tuple_catches_nothing
    (self : ExceptionHandler.t) (rm lf : option string) (f : callable)
    (args : call_args) (w w' : world) (e : exception) (tb : traceback) :
  f args w = (Raised e tb, w') →
  exception_handler_decorator self [] rm lf =
    decorator [] (default (ExceptionHandler.return_message self) rm)
      (default (ExceptionHandler.log_file self) lf)
  ∧ exception_handler_decorator self [] rm lf f args w =
      (Raised e (here "wrapper" 35 :: tb), w').
Proof.
  intros Hf. split.
  - by destruct rm, lf.
  - rewrite exception_handler_decorator_unfold.
    apply wrapper_unmatched; [done | apply isinstance_nil].
Qed.

Lemma C10_witness :
  exception_handler_decorator exc_handler [] None None =
    decorator [] "Unexpected error, seek help." "default_error_log.txt"
  ∧ exception_handler_decorator exc_handler [] None None div_array_body
      (call1 (VList [VInt 10; VInt 0])) empty_world =
      (Raised (new ZeroDivisionError "division by zero")
         [here "wrapper" 35; here "div_array" 73; here "<lambda>" 73],
       empty_world).
Proof.
  apply (C10_empty_tuple_catches_nothing exc_handler None None div_array_body
           (call1 (VList [VInt 10; VInt 0])) empty_world empty_world
           (new ZeroDivisionError "division by zero")
           [here "div_array" 73; here "<lambda>" 73]).
  reflexivity.
Defined.

(** ** Further properties *)

(** *** The division without its guards *)

Lemma truediv_error (x y : value) (e : exception) :
  truediv x y = inl e →
  exc_type e ∈ [ZeroDivisionError; OverflowError; TypeError]
  ∧ exc_context e = None.
Proof.
  unfold truediv.
  destruct (as_number x) as [[a|fa]|], (as_number y) as [[b|fb]|]; simpl;
    repeat case_match; intros [= <-]; simpl;
    (split; [|done]); set_unfold; tauto.
Qed.

Lemma truediv_result (x y v : value) :
  truediv x y = inr v → ∃ q, v = VFloat q.
Proof.
  unfold truediv.
  destruct (as_number x) as [[a|fa]|], (as_number y) as [[b|fb]|]; simpl;
    repeat case_match; intros [= <-]; by eexists.
Qed.

Lemma div_lambda_unfold (x y : value) (w : world) :
  div_lambda x y w =
  (match truediv x y with
   | inl e => Raised e [here "<lambda>" 73]
   | inr q => Returned q
   end, w).
Proof. unfold div_lambda, in_frame, lift_result. by destruct (truediv x y). Qed.

Lemma reduce_from_div_lambda (rest : list value) : ∀ (acc : value) (w : world),
  reduce_from div_lambda acc rest w =
  (match quotient_from acc rest with
   | inl e => Raised e [here "<lambda>" 73]
   | inr q => Returned q
   end, w).
Proof.
  induction rest as [|y rest IH]; intros acc w; [done|].
  simpl. unfold bind. rewrite div_lambda_unfold.
  destruct (truediv acc y) as [e|q]; [done | apply IH].
Qed.


Lemma quotient_from_error (rest : list value) : ∀ acc e,
  quotient_from acc rest = inl e →
  exc_type e ∈ [ZeroDivisionError; OverflowError; TypeError]
  ∧ exc_context e = None.
Proof.
  induction rest as [|y rest IH]; intros acc e; [done|].
  simpl. destruct (truediv acc y) as [e'|q] eqn:Hdiv.
  - intros [= <-]. by apply (truediv_error acc y).
  - apply IH.
Qed.

Lemma quotient_from_result (rest : list value) : ∀ acc y v,
  quotient_from acc (y :: rest) = inr v → ∃ q, v = VFloat q.
Proof.
  induction rest as [|z rest IH]; intros acc y v; simpl.
  - destruct (truediv acc y) as [e|q] eqn:Hdiv; [done|].
    intros [= <-]. by apply (truediv_result acc y).
  - destruct (truediv acc y) as [e|q] eqn:Hdiv; [done|]. apply IH.
Qed.

Lemma division_outcome_spec (num_array : value) (w : world) :
  div_array_body (call1 num_array) w = (division_outcome num_array, w).
Proof.
  unfold div_array_body, division_outcome, reduce, in_frame. simpl.
  destruct (py_iter num_array) as [[|x rest]|]; try done.
  rewrite reduce_from_div_lambda. by destruct (quotient_from x rest).
Qed.

Lemma bind_num_array_error (args : call_args) (e : exception) :
  bind_num_array args = inl e →
  exc_type e = TypeError ∧ exc_context e = None.
Proof.
  unfold bind_num_array.
  destruct (keywords args) as [|[k v] kws], (positional args) as [|x [|y pos]];
    repeat case_match; by intros [= <-].
Qed.

Lemma div_array_body_unfold (args : call_args) (w : world) :
  div_array_body args w =
  (match bind_num_array args with
   | inl e => Raised e []
   | inr num_array => division_outcome num_array
   end, w).
Proof.
  unfold div_array_body. destruct (bind_num_array args) as [e|v] eqn:Hb; [done|].
  unfold division_outcome, reduce, in_frame.
  destruct (py_iter v) as [[|x rest]|]; try done.
  rewrite reduce_from_div_lambda. by destruct (quotient_from x rest).
Qed.

Lemma division_outcome_error (num_array : value) (e : exception)
    (tb : traceback) :
  division_outcome num_array = Raised e tb →
  exc_type e ∈ [ZeroDivisionError; OverflowError; TypeError]
  ∧ exc_context e = None.
Proof.
  unfold division_outcome.
  destruct (py_iter num_array) as [[|x rest]|].
  - intros [= <- _]. split; [set_unfold; tauto | done].
  - destruct (quotient_from x rest) as [e'|q] eqn:Hq; [|done].
    intros [= <- _]. by apply (quotient_from_error rest x).
  - intros [= <- _]. split; [set_unfold; tauto | done].
Qed.

(** X1. Called with arguments that are [None], numbers, strings, or lists
    and tuples of these (values whose iteration has no effect),
    [div_array_body] neither reads nor changes the host: its outcome is the
    one it has on a host without files, and the host after the call is the
    host before it. *)
Theorem div_array_body_leaves_the_host_alone (args : call_args) (w : world) :
  div_array_body args w = ((div_array_body args empty_world).1, w).
Proof. by rewrite !div_array_body_unfold. Qed.

(** X2. Called with arguments that are [None], numbers, strings, or lists
    and tuples of these, [div_array_body] raises, when it raises, a new
    [ZeroDivisionError], [OverflowError] or [TypeError] (one without a
    context), and no other class. *)
Theorem div_array_body_raises_three_classes
    (args : call_args) (w w' : world) (e : exception) (tb : traceback) :
  div_array_body args w = (Raised e tb, w') →
  exc_type e ∈ [ZeroDivisionError; OverflowError; TypeError]
  ∧ exc_context e = None.
Proof.
  rewrite div_array_body_unfold. intros [= Ho _].
  destruct (bind_num_array args) as [e'|v] eqn:Hb.
  - injection Ho as <- _.
    destruct (bind_num_array_error args e' Hb) as [-> ->].
    split; [set_unfold; tauto | done].
  - by apply (division_outcome_error v e tb).
Qed.

Lemma div_array_body_raises_three_classes_witness :
  exc_type (new ZeroDivisionError "division by zero")
    ∈ [ZeroDivisionError; OverflowError; TypeError]
  ∧ exc_context (new ZeroDivisionError "division by zero") = None.
Proof.
  apply (div_array_body_raises_three_classes
           (call1 (VList [VInt 10; VInt 0])) empty_world empty_world
           (new ZeroDivisionError "division by zero")
           [here "div_array" 73; here "<lambda>" 73]).
  reflexivity.
Defined.



(** X4. A division of two or more items that succeeds returns a float,
    also when every item is an [int]. *)
Theorem div_array_body_returns_a_float
    (num_array x y : value) (rest : list value) (w w' : world) (v : value) :
  py_iter num_array = Some (x :: y :: rest) →
  div_array_body (call1 num_array) w = (Returned v, w') →
  ∃ q, v = VFloat q.
Proof.
  intros Hit. rewrite division_outcome_spec. unfold division_outcome.
  rewrite Hit. destruct (quotient_from x (y :: rest)) as [e|q] eqn:Hq; [done|].
  intros [= <- _]. by apply (quotient_from_result rest x y).
Qed.

Lemma div_array_body_returns_a_float_witness : ∃ q, VFloat 2 = VFloat q.
Proof.
  apply (div_array_body_returns_a_float (VTuple [VInt 4; VInt 2])
           (VInt 4) (VInt 2) [] empty_world empty_world (VFloat 2));
    reflexivity.
Defined.

(** X5. An iterable with a single item is returned as that item, whatever
    it is: nothing is divided, no guard acts, the host is unchanged. *)
Theorem div_array_single_item
    (num_array v : value) (w : world) :
  py_iter num_array = Some [v] →
  div_array (call1 num_array) w = (Returned v, w).
Proof.
  intros Hit. rewrite div_array_layers. apply decorate_returned.
  rewrite division_outcome_spec. unfold division_outcome. by rewrite Hit.
Qed.

Lemma div_array_single_item_witness :
  div_array (call1 (VStr "a")) empty_world = (Returned (VStr "a"), empty_world).
Proof.
  apply (div_array_single_item (VStr "a") (VStr "a") empty_world). reflexivity.
Defined.

(** *** Classes *)

(** The classes of a class of [cls] are classes of [cls]. *)
Lemma mro_trans (cls : exc_class) : ∀ parent c,
  parent ∈ mro cls → c ∈ mro parent → c ∈ mro cls.
Proof.
  induction cls as [| | | | | | | | | | | | | | |name base IH];
    intros parent c Hparent Hc;
    try (simpl in Hparent; set_unfold;
         repeat (destruct Hparent as [->|Hparent]; [simpl in Hc; set_unfold; tauto|]);
         done).
  change (mro (UserDefined name base)) with (UserDefined name base :: mro base)
    in *.
  apply elem_of_cons in Hparent as [->|Hparent]; [done|].
  apply elem_of_cons. right. by apply (IH parent).
Qed.

Lemma issubclass_trans (a b c : exc_class) :
  issubclass a b = true → issubclass b c = true → issubclass a c = true.
Proof.
  unfold issubclass. rewrite !bool_decide_eq_true. intros Hab Hbc.
  by apply (mro_trans a b).
Qed.

(** A clause that lists [parent] catches every instance of [parent]. *)
Lemma isinstance_subclass (e : exception) (parent : exc_class)
    (classes : list exc_class) :
  issubclass (exc_type e) parent = true →
  (∃ cls, cls ∈ classes ∧ issubclass parent cls = true) →
  isinstance e classes = true.
Proof.
  intros Hsub (cls & Hin & Hcls). unfold isinstance. apply existsb_exists.
  exists cls. split; [by apply list_elem_of_In|].
  by apply (issubclass_trans _ parent).
Qed.

(** Only the classes listed count, not their order or repetition. *)
Lemma isinstance_same_classes (e : exception) (classes1 classes2 : list exc_class) :
  (∀ cls, cls ∈ classes1 ↔ cls ∈ classes2) →
  isinstance e classes1 = isinstance e classes2.
Proof.
  intros Hsame. unfold isinstance.
  destruct (existsb (issubclass (exc_type e)) classes2) eqn:H2.
  - apply existsb_exists in H2 as (cls & Hin & Hsub).
    apply existsb_exists. exists cls. split; [|done].
    apply list_elem_of_In, Hsame. by apply list_elem_of_In.
  - apply not_true_is_false. intros H1.
    apply existsb_exists in H1 as (cls & Hin & Hsub).
    assert (existsb (issubclass (exc_type e)) classes2 = true) as Habs;
      [|congruence].
    apply existsb_exists. exists cls. split; [|done].
    apply list_elem_of_In, Hsame. by apply list_elem_of_In.
Qed.

(** *** One guard, seen from the host *)

Section HostAccess.

Implicit Types (w : world) (path : string) (e : exception) (tb : traceback).

Lemma same_access_refl w : same_access w w.
Proof. by intros path. Qed.

Lemma same_access_sym w1 w2 : same_access w1 w2 → same_access w2 w1.
Proof. intros H path. by rewrite H. Qed.

Lemma same_access_trans w1 w2 w3 :
  same_access w1 w2 → same_access w2 w3 → same_access w1 w3.
Proof. intros H12 H23 path. by rewrite H12. Qed.

(** The handler touches no file but its own. *)
Lemma save_trace_other_files w target path e tb :
  path ≠ target →
  files ((save_trace target e tb w).2) !! path = files w !! path.
Proof.
  intros Hne.
  destruct (can_write w target) eqn:Hw.
  - rewrite save_trace_ok by done. simpl. by rewrite lookup_insert_ne.
  - destruct (save_trace_fails w target e tb Hw)
      as (err & line & w' & -> & _ & Hfiles).
    simpl. by rewrite Hfiles.
Qed.

(** The handler leaves every path as accessible as it was. *)
Lemma save_trace_same_access w target e tb :
  same_access w ((save_trace target e tb w).2).
Proof.
  intros path.
  destruct (can_write w target) eqn:Hw.
  - rewrite save_trace_ok by done. simpl.
    destruct (decide (path = target)) as [->|Hne];
      [|by rewrite lookup_insert_ne].
    rewrite lookup_insert_eq. unfold can_write in Hw.
    apply andb_prop in Hw as [_ Hnode].
    by destruct (files w !! target) as [[]|].
  - destruct (save_trace_fails w target e tb Hw)
      as (err & line & w' & -> & _ & Hfiles).
    simpl. by rewrite Hfiles.
Qed.

(** What the handler returns or raises is fixed by how accessible its
    path is. *)
Lemma save_trace_outcome_access w1 w2 target e tb :
  access_of (files w1 !! target) = access_of (files w2 !! target) →
  (save_trace target e tb w1).1 = (save_trace target e tb w2).1.
Proof.
  intros Hacc.
  unfold save_trace, with_open_w, bind, finally, in_frame, print_exc,
    open_w, write, close.
  destruct (decide (target = "")) as [|_]; [done|].
  destruct (files w1 !! target) as [[c1| | |]|] eqn:Hlk1,
           (files w2 !! target) as [[c2| | |]|] eqn:Hlk2;
    simpl in Hacc; try discriminate Hacc; simpl;
    rewrite ?lookup_insert_eq, ?Hlk1, ?Hlk2; simpl;
    rewrite ?lookup_insert_eq, ?Hlk1, ?Hlk2; try done.
  by rewrite !unflushed_written by apply format_exc_nonempty.
Qed.

Lemma can_write_access w path :
  can_write w path =
  bool_decide (path ≠ "") &&
  bool_decide (access_of (files w !! path) = Writable).
Proof.
  unfold can_write. by destruct (files w !! path) as [[]|].
Qed.

End HostAccess.

Section GuardAnatomy.

Variables (exceptions : list exc_class) (return_message log_file : string).
Variable func : callable.

Local Abbreviation guard := (wrapper exceptions return_message log_file func).

(** The host after a call of the guard. *)
Lemma wrapper_host args w :
  (guard args w).2 =
  match func args w with
  | (Returned _, w') => w'
  | (Raised e tb, w') =>
      if isinstance e exceptions
      then (save_trace log_file e (here "wrapper" 35 :: tb) w').2
      else w'
  end.
Proof.
  destruct (func args w) as [[v|e tb] w'] eqn:Hf.
  - by rewrite (wrapper_returned _ _ _ _ _ _ _ _ Hf).
  - destruct (isinstance e exceptions) eqn:He.
    + rewrite (wrapper_matched _ _ _ _ _ _ _ _ _ Hf He).
      unfold handling, bind, ret.
      by destruct (save_trace log_file e (here "wrapper" 35 :: tb) w')
        as [[[]|err tb'] w''].
    + by rewrite (wrapper_unmatched _ _ _ _ _ _ _ _ _ Hf He).
Qed.

(** What a call of the guard returns or raises. *)
Lemma wrapper_result args w :
  (guard args w).1 =
  match func args w with
  | (Returned v, _) => Returned v
  | (Raised e tb, w') =>
      if isinstance e exceptions
      then
        match (save_trace log_file e (here "wrapper" 35 :: tb) w').1 with
        | Returned _ => Returned (VStr return_message)
        | Raised err tb' =>
            Raised (chain_context err (e, here "wrapper" 35 :: tb)) tb'
        end
      else Raised e (here "wrapper" 35 :: tb)
  end.
Proof.
  destruct (func args w) as [[v|e tb] w'] eqn:Hf.
  - by rewrite (wrapper_returned _ _ _ _ _ _ _ _ Hf).
  - destruct (isinstance e exceptions) eqn:He.
    + rewrite (wrapper_matched _ _ _ _ _ _ _ _ _ Hf He).
      unfold handling, bind, ret.
      by destruct (save_trace log_file e (here "wrapper" 35 :: tb) w')
        as [[[]|err tb'] w''].
    + by rewrite (wrapper_unmatched _ _ _ _ _ _ _ _ _ Hf He).
Qed.

Lemma wrapper_other_files args w path :
  path ≠ log_file →
  files ((guard args w).2) !! path = files ((func args w).2) !! path.
Proof.
  intros Hne. rewrite wrapper_host.
  destruct (func args w) as [[v|e tb] w']; [done|]. simpl.
  destruct (isinstance e exceptions); [|done].
  by apply save_trace_other_files.
Qed.

Lemma wrapper_same_access args w :
  same_access ((func args w).2) ((guard args w).2).
Proof.
  rewrite wrapper_host.
  destruct (func args w) as [[v|e tb] w']; simpl; [apply same_access_refl|].
  destruct (isinstance e exceptions); [|apply same_access_refl].
  apply save_trace_same_access.
Qed.

Lemma wrapper_settled args : settled func args → settled guard args.
Proof.
  intros [Hkeep Hblind]. split.
  - intros w. apply (same_access_trans _ ((func args w).2)); [apply Hkeep|].
    apply wrapper_same_access.
  - intros w1 w2 H12. rewrite !wrapper_result.
    pose proof (Hblind w1 w2 H12) as Hout.
    assert (same_access ((func args w1).2) ((func args w2).2)) as Hpost.
    { apply (same_access_trans _ w1); [apply same_access_sym, Hkeep|].
      apply (same_access_trans _ w2); [done | apply Hkeep]. }
    destruct (func args w1) as [o1 w1'], (func args w2) as [o2 w2'].
    simpl in Hout, Hpost. subst o2. destruct o1 as [v|e tb]; [done|].
    destruct (isinstance e exceptions); [|done].
    by rewrite (save_trace_outcome_access w1' w2').
Qed.

(** What a handler raises is an [OSError]; so a guard over a call that
    raises instances of [Exception] raises instances of [Exception]. *)
Lemma wrapper_ordinary args w : ordinary func args w → ordinary guard args w.
Proof.
  intros Hf e tb w' Hg.
  destruct (func args w) as [[v|e0 tb0] w0] eqn:Hfw.
  - by rewrite (wrapper_returned _ _ _ _ _ _ _ _ Hfw) in Hg.
  - destruct (isinstance e0 exceptions) eqn:He.
    + destruct (can_write w0 log_file) eqn:Hw.
      * by rewrite (wrapper_handled exceptions return_message log_file func
                      args w e0 tb0 w0 Hfw He Hw) in Hg.
      * destruct (wrapper_write_error exceptions return_message log_file func
                    args w e0 tb0 w0 Hfw He Hw)
          as (err & line & w'' & Hg' & Hsub & _).
        rewrite Hg' in Hg. injection Hg as <- _ _.
        by apply (issubclass_trans _ OSError).
    + rewrite (wrapper_unmatched _ _ _ _ _ _ _ _ _ Hfw He) in Hg.
      injection Hg as <- _ _. by apply (Hf e0 tb0 w0).
Qed.

End GuardAnatomy.

(** *** Stacks of guards *)

Section StackAnatomy.

Variable self : ExceptionHandler.t.

Implicit Types (layers : list layer) (f : callable) (args : call_args).

Lemma decorate_snoc layers l f :
  decorate self (layers ++ [l]) f =
  wrapper (layer_exceptions l) (layer_message self l) (layer_target self l)
    (decorate self layers f).
Proof. rewrite decorate_app. simpl. apply apply_layer_unfold. Qed.

Lemma decorate_other_files layers : ∀ f args w path,
  path ∉ layer_target self <$> layers →
  files ((decorate self layers f args w).2) !! path =
  files ((f args w).2) !! path.
Proof.
  induction layers as [|l layers IH] using rev_ind; intros f args w path Hout;
    [done|].
  rewrite fmap_app in Hout. apply not_elem_of_app in Hout as [Hlayers Hl].
  rewrite decorate_snoc, wrapper_other_files; [by apply IH|].
  intros ->. apply Hl. simpl. apply list_elem_of_here.
Qed.

Lemma decorate_settled layers : ∀ f args,
  settled f args → settled (decorate self layers f) args.
Proof.
  induction layers as [|l layers IH] using rev_ind; intros f args Hf; [done|].
  rewrite decorate_snoc. by apply wrapper_settled, IH.
Qed.

Lemma decorate_ordinary layers : ∀ f args w,
  ordinary f args w → ordinary (decorate self layers f) args w.
Proof.
  induction layers as [|l layers IH] using rev_ind; intros f args w Hf; [done|].
  rewrite decorate_snoc. by apply wrapper_ordinary, IH.
Qed.

(** A call whose outcome is fixed by how accessible the paths are, and that
    keeps them so, has the same outcome when it is repeated. *)
Lemma settled_repeat f args w :
  settled f args → (f args ((f args w).2)).1 = (f args w).1.
Proof. intros [Hkeep Hblind]. symmetry. apply Hblind, Hkeep. Qed.

(** Under a last layer that lists [Exception] (or a base class of it) and
    whose file can be written, a call that raises instances of [Exception]
    comes back with a value. *)
Lemma catch_all_returns layers top f args w :
  ordinary f args w →
  (∃ cls, cls ∈ layer_exceptions top ∧ issubclass Exception cls = true) →
  layer_target self top ∉ layer_target self <$> layers →
  can_write ((f args w).2) (layer_target self top) = true →
  ∃ v w', decorate self (layers ++ [top]) f args w = (Returned v, w').
Proof.
  intros Hf Htop Hfresh Hw. rewrite decorate_snoc.
  pose proof (decorate_ordinary layers f args w Hf) as Hg.
  pose proof (decorate_other_files layers f args w _ Hfresh) as Hfiles.
  destruct (decorate self layers f args w) as [[v|e tb] w1] eqn:Hgw.
  - exists v, w1. by apply wrapper_returned.
  - eexists _, _. apply (wrapper_handled _ _ _ _ args w e tb w1); [done| |].
    + apply (isinstance_subclass e Exception); [by apply (Hg e tb w1) | done].
    + by rewrite (can_write_same_node w1 ((f args w).2)).
Qed.

End StackAnatomy.

(** The undecorated division is settled, and raises instances of
    [Exception] only. *)
Lemma div_array_body_settled (args : call_args) : settled div_array_body args.
Proof.
  split.
  - intros w. rewrite div_array_body_unfold. apply same_access_refl.
  - intros w1 w2 _. by rewrite !div_array_body_unfold.
Qed.

Lemma div_array_body_ordinary (args : call_args) (w : world) :
  ordinary div_array_body args w.
Proof.
  intros e tb w'. rewrite div_array_body_unfold. intros [= Ho _].
  assert (exc_type e ∈ [ZeroDivisionError; OverflowError; TypeError]) as Hcls.
  { destruct (bind_num_array args) as [e'|v] eqn:Hb.
    - injection Ho as <- _. destruct (bind_num_array_error args e' Hb) as [-> _].
      set_unfold; tauto.
    - by apply (division_outcome_error v e tb). }
  set_unfold. by destruct Hcls as [->|[->|[->|[]]]].
Qed.

(** X6. When no layer of a stack lists the class of the exception or one
    of its base classes, the stack raises the exception that [f] raised,
    writes nothing, and leaves the host as [f] left it; the traceback has
    one entry of [wrapper] per layer in front. *)
Theorem stack_without_match_propagates
    (self : ExceptionHandler.t) (layers : list layer) (f : callable)
    (args : call_args) (w w' : world) (e : exception) (tb : traceback) :
  f args w = (Raised e tb, w') →
  (∀ l cls, l ∈ layers → cls ∈ layer_exceptions l → cls ∉ mro (exc_type e)) →
  decorate self layers f args w =
    (Raised e (replicate (length layers) (here "wrapper" 35) ++ tb), w').
Proof.
  intros Hf Hnone. apply decorate_unmatched; [done|].
  apply Forall_forall. intros l Hl. apply isinstance_false.
  intros cls Hcls. by apply (Hnone l).
Qed.

Lemma stack_without_match_propagates_witness :
  decorate exc_handler [zero_division_layer; type_error_layer]
    div_array_body (call1 (VList [VInt (2 ^ 1024); VInt 1])) empty_world =
  (Raised (new OverflowError "integer division result too large for a float")
     [here "wrapper" 35; here "wrapper" 35; here "div_array" 73;
      here "<lambda>" 73],
   empty_world).
Proof.
  apply (stack_without_match_propagates exc_handler
           [zero_division_layer; type_error_layer] div_array_body
           (call1 (VList [VInt (2 ^ 1024); VInt 1])) empty_world empty_world
           (new OverflowError "integer division result too large for a float")
           [here "div_array" 73; here "<lambda>" 73]).
  - reflexivity.
  - intros l cls Hl Hcls Hmro. simpl in Hmro.
    apply elem_of_cons in Hl as [->|Hl];
      [|apply (proj1 (list_elem_of_singleton _ _)) in Hl; subst l];
      apply (proj1 (list_elem_of_singleton _ _)) in Hcls; subst cls;
      refute_elem_of Hmro.
Defined.

(** X7. Guards that list instances of [Exception] only never catch an
    exception that is not one, such as [KeyboardInterrupt]: it goes through
    the whole stack. *)
Theorem stack_lets_non_exceptions_through
    (self : ExceptionHandler.t) (layers : list layer) (f : callable)
    (args : call_args) (w w' : world) (e : exception) (tb : traceback) :
  f args w = (Raised e tb, w') →
  (∀ l cls, l ∈ layers → cls ∈ layer_exceptions l →
            issubclass cls Exception = true) →
  issubclass (exc_type e) Exception = false →
  decorate self layers f args w =
    (Raised e (replicate (length layers) (here "wrapper" 35) ++ tb), w').
Proof.
  intros Hf Hlisted He. apply decorate_unmatched; [done|].
  apply Forall_forall. intros l Hl. apply isinstance_false.
  intros cls Hcls Hmro.
  assert (issubclass (exc_type e) Exception = true) as Habs; [|congruence].
  apply (issubclass_trans _ cls); [by apply bool_decide_eq_true | by apply (Hlisted l)].
Qed.

Lemma stack_lets_non_exceptions_through_witness :
  decorate exc_handler [zero_division_layer; type_error_layer; catch_all_layer]
    (fun _ => raise (new KeyboardInterrupt "")) (call1 VNone) stale_world =
  (Raised (new KeyboardInterrupt "")
     [here "wrapper" 35; here "wrapper" 35; here "wrapper" 35], stale_world).
Proof.
  apply (stack_lets_non_exceptions_through exc_handler
           [zero_division_layer; type_error_layer; catch_all_layer]
           (fun _ => raise (new KeyboardInterrupt "")) (call1 VNone)
           stale_world stale_world (new KeyboardInterrupt "") []).
  - reflexivity.
  - intros l cls Hl Hcls.
    repeat (apply elem_of_cons in Hl as [->|Hl];
            [apply (proj1 (list_elem_of_singleton _ _)) in Hcls; by subst cls|]).
    by apply elem_of_nil in Hl.
  - reflexivity.
Defined.

(** X8. A stack of guards changes no file but the diagnostic files of its
    layers: every other path denotes after the call what it denoted when
    [f] was done. *)
Theorem stack_touches_only_its_own_files
    (self : ExceptionHandler.t) (layers : list layer) (f : callable)
    (args : call_args) (w : world) (path : string) :
  path ∉ layer_target self <$> layers →
  files ((decorate self layers f args w).2) !! path =
  files ((f args w).2) !! path.
Proof.
  revert f. induction layers as [|l layers IH] using rev_ind; intros f Hout;
    [done|].
  rewrite fmap_app in Hout. apply not_elem_of_app in Hout as [Hlayers Hl].
  rewrite decorate_snoc, wrapper_other_files; [by apply IH|].
  intros ->. apply Hl. simpl. apply list_elem_of_here.
Qed.

Lemma stack_touches_only_its_own_files_witness :
  files ((decorate exc_handler [zero_division_layer; type_error_layer]
            div_array_body (call1 (VList [VInt 10; VInt 0])) stale_world).2)
    !! "default_error_log.txt" =
  files ((div_array_body (call1 (VList [VInt 10; VInt 0])) stale_world).2)
    !! "default_error_log.txt".
Proof.
  apply (stack_touches_only_its_own_files exc_handler
           [zero_division_layer; type_error_layer] div_array_body
           (call1 (VList [VInt 10; VInt 0])) stale_world
           "default_error_log.txt").
  intros Hin. simpl in Hin. refute_elem_of Hin.
Defined.

(** X9. Only the classes that a tuple lists count, not their order or
    their repetition: guards made from tuples with the same members behave
    alike on every call. *)
Theorem guard_ignores_order_of_classes
    (self : ExceptionHandler.t) (classes1 classes2 : list exc_class)
    (rm lf : option string) (f : callable) (args : call_args) (w : world) :
  (∀ cls, cls ∈ classes1 ↔ cls ∈ classes2) →
  exception_handler_decorator self classes1 rm lf f args w =
  exception_handler_decorator self classes2 rm lf f args w.
Proof.
  intros Hsame. rewrite !exception_handler_decorator_unfold.
  unfold wrapper, try_except, in_frame.
  destruct (f args w) as [[v|e tb] w']; [done|].
  by rewrite (isinstance_same_classes e classes1 classes2).
Qed.

Lemma guard_ignores_order_of_classes_witness :
  exception_handler_decorator exc_handler [ZeroDivisionError; TypeError]
    None None div_array_body (call1 (VInt 1)) empty_world =
  exception_handler_decorator exc_handler
    [TypeError; ZeroDivisionError; TypeError]
    None None div_array_body (call1 (VInt 1)) empty_world.
Proof.
  apply (guard_ignores_order_of_classes exc_handler
           [ZeroDivisionError; TypeError]
           [TypeError; ZeroDivisionError; TypeError]
           None None div_array_body (call1 (VInt 1)) empty_world).
  intros cls. set_unfold. tauto.
Defined.

(** X10. When the guard next to [f] catches an exception but cannot write
    its diagnostic file, the error of the write goes to the next guard; if
    that one lists [OSError] or a base class of it and can write its own
    file, the call returns the outer guard's message, and the outer file
    records the error of the write, which has the first exception in its
    chain of contexts. *)
Theorem outer_guard_answers_for_failed_write
    (self : ExceptionHandler.t) (inner outer : layer) (f : callable)
    (args : call_args) (w w' : world) (e : exception) (tb : traceback) :
  f args w = (Raised e tb, w') →
  isinstance e (layer_exceptions inner) = true →
  can_write w' (layer_target self inner) = false →
  (∃ cls, cls ∈ layer_exceptions outer ∧ issubclass OSError cls = true) →
  can_write w' (layer_target self outer) = true →
  ∃ err line w'',
    decorate self [inner; outer] f args w =
      (Returned (VStr (layer_message self outer)),
       logged (layer_target self outer)
         (format_exc err [here "wrapper" 35; here "wrapper" line]) w'')
    ∧ issubclass (exc_type err) OSError = true
    ∧ in_context_chain e err
    ∧ files w'' = files w'.
Proof.
  intros Hf He Hw Houter Hw2.
  destruct (wrapper_write_error (layer_exceptions inner)
              (layer_message self inner) (layer_target self inner) f args w
              e tb w' Hf He Hw)
    as (err & line & w'' & Hinner & Hsub & Hctx & Hfiles).
  exists err, line, w''. split; [|done].
  simpl. rewrite !apply_layer_unfold.
  apply wrapper_handled; [done| |].
  - by apply (isinstance_subclass err OSError).
  - rewrite (can_write_same_node w'' w'); [done | by rewrite Hfiles].
Qed.

Lemma outer_guard_answers_for_failed_write_witness :
  ∃ err line w'',
    decorate exc_handler [type_error_layer; catch_all_layer] div_array_body
      (call1 (VInt 1)) full_world =
      (Returned (VStr "Unexpected error, seek help."),
       logged "default_error_log.txt"
         (format_exc err [here "wrapper" 35; here "wrapper" line]) w'')
    ∧ issubclass (exc_type err) OSError = true
    ∧ in_context_chain
        (new TypeError "reduce() arg 2 must support iteration") err
    ∧ files w'' = files full_world.
Proof.
  apply (outer_guard_answers_for_failed_write exc_handler type_error_layer
           catch_all_layer div_array_body (call1 (VInt 1))
           full_world full_world
           (new TypeError "reduce() arg 2 must support iteration")
           [here "div_array" 73]).
  - reflexivity.
  - reflexivity.
  - reflexivity.
  - exists Exception. split; [apply list_elem_of_here | reflexivity].
  - reflexivity.
Defined.

(** X11. Let the outermost layer of a stack list [Exception] (or a base
    class of it) and use a diagnostic file that no other layer uses.  If
    [f] raises instances of [Exception] only and that file can be written
    once [f] is done, the call never raises: whatever happens in [f] or in
    the inner guards, the caller gets a value. *)
Theorem catch_all_on_top_never_raises
    (self : ExceptionHandler.t) (layers : list layer) (top : layer)
    (f : callable) (args : call_args) (w : world) :
  (∀ e tb w', f args w = (Raised e tb, w') →
              issubclass (exc_type e) Exception = true) →
  (∃ cls, cls ∈ layer_exceptions top ∧ issubclass Exception cls = true) →
  layer_target self top ∉ layer_target self <$> layers →
  can_write ((f args w).2) (layer_target self top) = true →
  ∃ v w', decorate self (layers ++ [top]) f args w = (Returned v, w').
Proof.
  intros Hf Htop Hfresh Hw. rewrite decorate_snoc.
  assert (ordinary (decorate self layers f) args w) as Hg
    by (by apply decorate_ordinary).
  assert (files ((decorate self layers f args w).2) !! layer_target self top
          = files ((f args w).2) !! layer_target self top) as Hfiles
    by (by apply decorate_other_files).
  destruct (decorate self layers f args w) as [[v|e tb] w1] eqn:Hgw.
  - exists v, w1. by apply wrapper_returned.
  - eexists _, _. apply (wrapper_handled _ _ _ _ args w e tb w1); [done| |].
    + apply (isinstance_subclass e Exception); [by apply (Hg e tb w1) | done].
    + by rewrite (can_write_same_node w1 ((f args w).2)).
Qed.

Lemma catch_all_on_top_never_raises_witness :
  ∃ v w',
    decorate exc_handler ([zero_division_layer; type_error_layer]
                            ++ [catch_all_layer])
      div_array_body (call1 (VInt 1)) directory_world = (Returned v, w').
Proof.
  apply (catch_all_on_top_never_raises exc_handler
           [zero_division_layer; type_error_layer] catch_all_layer
           div_array_body (call1 (VInt 1)) directory_world).
  - apply div_array_body_ordinary.
  - exists Exception. split; [apply list_elem_of_here | reflexivity].
  - intros Hin. simpl in Hin. refute_elem_of Hin.
  - reflexivity.
Defined.

(** X12. On a host where [default_error_log.txt] can be written,
    [div_array] does not raise when its arguments are [None], numbers,
    strings, or lists and tuples of these: every such call, however many
    arguments it has and whatever the state of the two other diagnostic
    files, returns a value. *)
Theorem div_array_never_raises (args : call_args) (w : world) :
  can_write w "default_error_log.txt" = true →
  ∃ v w', div_array args w = (Returned v, w').
Proof.
  intros Hw. rewrite div_array_layers.
  apply (catch_all_returns exc_handler
           [zero_division_layer; type_error_layer] catch_all_layer).
  - apply div_array_body_ordinary.
  - exists Exception. split; [apply list_elem_of_here | reflexivity].
  - intros Hin. simpl in Hin. refute_elem_of Hin.
  - by rewrite div_array_body_unfold.
Qed.

Lemma div_array_never_raises_witness :
  ∃ v w',
    div_array {| positional := []; keywords := [("x", VNone)] |}
      directory_world = (Returned v, w').
Proof.
  apply (div_array_never_raises
           {| positional := []; keywords := [("x", VNone)] |} directory_world).
  reflexivity.
Defined.

(** X13. If a call of [f] keeps every path as accessible as it was, and
    its outcome depends on the host only through how accessible the paths
    are, then the same holds for [f] under any stack of guards, and calling
    the guarded callable twice in a row gives the same result both times. *)
Theorem stack_repeated_call_same_outcome
    (self : ExceptionHandler.t) (layers : list layer) (f : callable)
    (args : call_args) (w : world) :
  (∀ w0, same_access w0 ((f args w0).2)) →
  (∀ w1 w2, same_access w1 w2 → (f args w1).1 = (f args w2).1) →
  let g := decorate self layers f in
  (g args ((g args w).2)).1 = (g args w).1.
Proof.
  intros Hkeep Hblind g.
  assert (settled g args) as [Hkeep' Hblind']
    by (apply decorate_settled; by split).
  symmetry. apply Hblind', Hkeep'.
Qed.

Lemma stack_repeated_call_same_outcome_witness :
  let g :=
    decorate exc_handler [zero_division_layer; type_error_layer]
      div_array_body in
  let args := call1 (VList [VInt 10; VInt 0]) in
  (g args ((g args directory_world).2)).1 = (g args directory_world).1.
Proof.
  apply (stack_repeated_call_same_outcome exc_handler
           [zero_division_layer; type_error_layer] div_array_body
           (call1 (VList [VInt 10; VInt 0])) directory_world).
  - intros w0. rewrite div_array_body_unfold. apply same_access_refl.
  - intros w1 w2 _. by rewrite !div_array_body_unfold.
Defined.

(** X14. Calling [div_array] twice in a row with the same arguments gives
    the same result both times, on every host, when the arguments are
    [None], numbers, strings, or lists and tuples of these: the first call
    changes nothing that the second one depends on. *)
Theorem div_array_repeated_call_same_outcome (args : call_args) (w : world) :
  (div_array args ((div_array args w).2)).1 = (div_array args w).1.
Proof.
  rewrite div_array_layers. apply settled_repeat, decorate_settled.
  apply div_array_body_settled.
Qed.

(** X15. Which guard answers for [div_array]: when the undecorated function
    raises [ZeroDivisionError], [TypeError] or [OverflowError] (it raises
    nothing else), the call returns the message of the first, the second or
    the outermost layer, and the traceback, with one, two or three entries
    of [wrapper] in front, becomes the whole content of that layer's file,
    provided that file can be written. *)
Theorem div_array_dispatch
    (args : call_args) (w w' : world) (e : exception) (tb : traceback) :
  div_array_body args w = (Raised e tb, w') →
  (exc_type e = ZeroDivisionError →
   can_write w' "zerodivisionerror.txt" = true →
   div_array args w =
     (Returned (VStr "Division by 0 is impossible!"),
      logged "zerodivisionerror.txt"
        (format_exc e (here "wrapper" 35 :: tb)) w'))
  ∧ (exc_type e = TypeError →
     can_write w' "typeerror.txt" = true →
     div_array args w =
       (Returned
          (VStr "Type Error ocurred! Please check the data types and try again."),
        logged "typeerror.txt"
          (format_exc e (here "wrapper" 35 :: here "wrapper" 35 :: tb)) w'))
  ∧ (exc_type e = OverflowError →
     can_write w' "default_error_log.txt" = true →
     div_array args w =
       (Returned (VStr "Unexpected error, seek help."),
        logged "default_error_log.txt"
          (format_exc e
             (here "wrapper" 35 :: here "wrapper" 35 :: here "wrapper" 35
                :: tb)) w')).
Proof.
  intros Hbody. rewrite div_array_layers. repeat split; intros Hcls Hw.
  - apply (decorate_first_match exc_handler [] zero_division_layer
             [type_error_layer; catch_all_layer] div_array_body args w e tb w');
      try done.
    unfold isinstance. simpl. by rewrite Hcls.
  - apply (decorate_first_match exc_handler [zero_division_layer]
             type_error_layer [catch_all_layer] div_array_body args w e tb w');
      try done.
    + repeat constructor. unfold isinstance. simpl. by rewrite Hcls.
    + unfold isinstance. simpl. by rewrite Hcls.
  - apply (decorate_first_match exc_handler
             [zero_division_layer; type_error_layer]
             catch_all_layer [] div_array_body args w e tb w');
      try done.
    + repeat constructor; unfold isinstance; simpl; by rewrite Hcls.
    + unfold isinstance. simpl. by rewrite Hcls.
Qed.

Lemma div_array_dispatch_witness :
  div_array (call1 (VList [VInt (2 ^ 1024); VInt 1])) empty_world =
  (Returned (VStr "Unexpected error, seek help."),
   logged "default_error_log.txt"
     (format_exc
        (new OverflowError "integer division result too large for a float")
        [here "wrapper" 35; here "wrapper" 35; here "wrapper" 35;
         here "div_array" 73; here "<lambda>" 73])
     empty_world).
Proof.
  destruct (div_array_dispatch (call1 (VList [VInt (2 ^ 1024); VInt 1]))
              empty_world empty_world
              (new OverflowError "integer division result too large for a float")
              [here "div_array" 73; here "<lambda>" 73] eq_refl)
    as (_ & _ & Hoverflow).
  exact (Hoverflow eq_refl eq_refl).
Defined.

(** X16. A call of [div_array] with the wrong arguments (none, more than
    one, an unknown keyword) does not raise: the arguments are bound inside
    the guards, so the [TypeError] of the binding is caught by the
    [TypeError] layer, which answers with its message when [typeerror.txt]
    can be written. *)
Theorem div_array_wrong_arguments
    (args : call_args) (e : exception) (w : world) :
  bind_num_array args = inl e →
  can_write w "typeerror.txt" = true →
  div_array args w =
    (Returned
       (VStr "Type Error ocurred! Please check the data types and try again."),
     logged "typeerror.txt"
       (format_exc e [here "wrapper" 35; here "wrapper" 35]) w).
Proof.
  intros Hbind Hw. rewrite div_array_layers.
  destruct (bind_num_array_error args e Hbind) as [Hcls _].
  apply (decorate_first_match exc_handler [zero_division_layer]
           type_error_layer [catch_all_layer] div_array_body args w e [] w);
    try done.
  - unfold div_array_body. by rewrite Hbind.
  - repeat constructor. unfold isinstance. simpl. by rewrite Hcls.
  - unfold isinstance. simpl. by rewrite Hcls.
Qed.

Lemma div_array_wrong_arguments_witness :
  div_array {| positional := []; keywords := [] |} empty_world =
  (Returned
     (VStr "Type Error ocurred! Please check the data types and try again."),
   logged "typeerror.txt"
     (format_exc
        (new TypeError
           "example.<locals>.div_array() missing 1 required positional argument: 'num_array'")
        [here "wrapper" 35; here "wrapper" 35])
     empty_world).
Proof.
  apply (div_array_wrong_arguments {| positional := []; keywords := [] |}
           (new TypeError
              "example.<locals>.div_array() missing 1 required positional argument: 'num_array'")
           empty_world);
    reflexivity.
Defined.

(** X17. Given something that is not iterable, or an iterable without
    items, [div_array] answers with the message of the [TypeError] layer
    (when [typeerror.txt] can be written): [reduce] raises [TypeError]
    before anything is divided. *)
Theorem div_array_nothing_to_divide (num_array : value) (w : world) :
  py_iter num_array = None ∨ py_iter num_array = Some [] →
  can_write w "typeerror.txt" = true →
  ∃ e,
    exc_type e = TypeError
    ∧ div_array (call1 num_array) w =
        (Returned
           (VStr "Type Error ocurred! Please check the data types and try again."),
         logged "typeerror.txt"
           (format_exc e
              [here "wrapper" 35; here "wrapper" 35; here "div_array" 73])
           w).
Proof.
  intros Hit Hw.
  assert (∃ e, exc_type e = TypeError
               ∧ div_array_body (call1 num_array) w =
                   (Raised e [here "div_array" 73], w)) as (e & Hcls & Hbody).
  { destruct Hit as [Hit|Hit];
      refine (ex_intro _ (new TypeError _) (conj eq_refl _));
      rewrite division_outcome_spec; unfold division_outcome;
      rewrite Hit; reflexivity. }
  exists e. split; [done|]. rewrite div_array_layers.
  apply (decorate_first_match exc_handler [zero_division_layer]
           type_error_layer [catch_all_layer] div_array_body
           (call1 num_array) w e [here "div_array" 73] w);
    try done.
  - repeat constructor. unfold isinstance. simpl. by rewrite Hcls.
  - unfold isinstance. simpl. by rewrite Hcls.
Qed.

Lemma div_array_nothing_to_divide_witness :
  ∃ e,
    exc_type e = TypeError
    ∧ div_array (call1 (VList [])) empty_world =
        (Returned
           (VStr "Type Error ocurred! Please check the data types and try again."),
         logged "typeerror.txt"
           (format_exc e
              [here "wrapper" 35; here "wrapper" 35; here "div_array" 73])
           empty_world).
Proof.
  apply (div_array_nothing_to_divide (VList []) empty_world).
  - right. reflexivity.
  - reflexivity.
Defined.

(** X18. A list of numbers that starts with an [int] followed by the [int]
    zero is answered by the [ZeroDivisionError] layer whatever comes after
    (when [zerodivisionerror.txt] can be written). *)
Theorem div_array_int_by_zero (a : Z) (rest : list value) (w : world) :
  can_write w "zerodivisionerror.txt" = true →
  div_array (call1 (VList (VInt a :: VInt 0 :: rest))) w =
    (Returned (VStr "Division by 0 is impossible!"),
     logged "zerodivisionerror.txt"
       (format_exc (new ZeroDivisionError "division by zero")
          [here "wrapper" 35; here "div_array" 73; here "<lambda>" 73])
       w).
Proof.
  intros Hw. rewrite div_array_layers.
  by apply (decorate_first_match exc_handler [] zero_division_layer
              [type_error_layer; catch_all_layer] div_array_body
              (call1 (VList (VInt a :: VInt 0 :: rest))) w
              (new ZeroDivisionError "division by zero")
              [here "div_array" 73; here "<lambda>" 73] w).
Qed.

Lemma div_array_int_by_zero_witness :
  div_array (call1 (VList (VInt 7 :: VInt 0 :: [VStr "x"]))) stale_world =
    (Returned (VStr "Division by 0 is impossible!"),
     logged "zerodivisionerror.txt"
       (format_exc (new ZeroDivisionError "division by zero")
          [here "wrapper" 35; here "div_array" 73; here "<lambda>" 73])
       stale_world).
Proof.
  apply (div_array_int_by_zero 7 [VStr "x"] stale_world). reflexivity.
Defined.

(** X19. When one of the first two items of a list is not a number (a
    string, [None], a list, ...), the first division raises [TypeError] and
    [div_array] answers with the message of the [TypeError] layer (when
    [typeerror.txt] can be written). *)
Theorem div_array_not_a_number
    (x y : value) (rest : list value) (w : world) :
  as_number x = None ∨ as_number y = None →
  can_write w "typeerror.txt" = true →
  div_array (call1 (VList (x :: y :: rest))) w =
    (Returned
       (VStr "Type Error ocurred! Please check the data types and try again."),
     logged "typeerror.txt"
       (format_exc
          (new TypeError
             ("unsupported operand type(s) for /: '" +:+ type_name x
                +:+ "' and '" +:+ type_name y +:+ "'"))
          [here "wrapper" 35; here "wrapper" 35; here "div_array" 73;
           here "<lambda>" 73])
       w).
Proof.
  intros Hnan Hw. rewrite div_array_layers.
  apply (decorate_first_match exc_handler [zero_division_layer]
           type_error_layer [catch_all_layer] div_array_body
           (call1 (VList (x :: y :: rest))) w _
           [here "div_array" 73; here "<lambda>" 73] w);
    try done.
  - rewrite division_outcome_spec. unfold division_outcome. simpl.
    assert (truediv x y =
            inl (new TypeError
                   ("unsupported operand type(s) for /: '" +:+ type_name x
                      +:+ "' and '" +:+ type_name y +:+ "'"))) as ->; [|done].
    unfold truediv.
    destruct Hnan as [-> | Hy]; [done|]. rewrite Hy.
    by destruct (as_number x) as [[a|fa]|].
  - by repeat constructor.
Qed.

Lemma div_array_not_a_number_witness :
  div_array (call1 (VList (VInt 3 :: VNone :: [VInt 0]))) empty_world =
    (Returned
       (VStr "Type Error ocurred! Please check the data types and try again."),
     logged "typeerror.txt"
       (format_exc
          (new TypeError
             ("unsupported operand type(s) for /: '" +:+ type_name (VInt 3)
                +:+ "' and '" +:+ type_name VNone +:+ "'"))
          [here "wrapper" 35; here "wrapper" 35; here "div_array" 73;
           here "<lambda>" 73])
       empty_world).
Proof.
  apply (div_array_not_a_number (VInt 3) VNone [VInt 0] empty_world).
  - right. reflexivity.
  - reflexivity.
Defined.

(** *** The demonstration as a whole *)

Lemma bind_print {A} (v : value) (k : M A) (w : world) :
  (print v ;;; k)%py w =
  k {| files := files w; events := events w ++ [EvPrint v] |}.
Proof. reflexivity. Qed.

Lemma bind_call_returned {A} (fr : frame) (m : M value) (k : value → M A)
    (w w' : world) (v : value) :
  m w = (Returned v, w') → (r <- in_frame fr m ;; k r)%py w = k v w'.
Proof. intros Hm. unfold bind, in_frame. by rewrite Hm. Qed.

Lemma can_write_same_files (w1 w2 : world) (path : string) :
  files w1 = files w2 → can_write w1 path = can_write w2 path.
Proof. intros Hf. apply can_write_same_node. by rewrite Hf. Qed.

Lemma can_write_other_insert (w1 w2 : world) (path other : string) (n : node) :
  files w1 = <[other := n]> (files w2) → path ≠ other →
  can_write w1 path = can_write w2 path.
Proof.
  intros Hf Hne. apply can_write_same_node. by rewrite Hf, lookup_insert_ne.
Qed.

(** X20. On a host where [typeerror.txt] and [zerodivisionerror.txt] can be
    written, [example] prints, in this order, its four labels each followed
    by the quotient [2.5], the [TypeError] message, the [ZeroDivisionError]
    message and the [TypeError] message again; it never touches
    [default_error_log.txt]; and at the end [typeerror.txt] holds only the
    traceback of the last call, [div_array(1)], the one of
    [div_array(["1", 2])] being overwritten. *)
Theorem example_on_a_writable_host (w : world) :
  let trace2 :=
    format_exc
      (new TypeError "unsupported operand type(s) for /: 'str' and 'int'")
      [here "wrapper" 35; here "wrapper" 35; here "div_array" 73;
       here "<lambda>" 73] in
  let trace3 :=
    format_exc (new ZeroDivisionError "division by zero")
      [here "wrapper" 35; here "div_array" 73; here "<lambda>" 73] in
  let trace4 :=
    format_exc (new TypeError "reduce() arg 2 must support iteration")
      [here "wrapper" 35; here "wrapper" 35; here "div_array" 73] in
  let type_error_message :=
    VStr "Type Error ocurred! Please check the data types and try again." in
  can_write w "typeerror.txt" = true →
  can_write w "zerodivisionerror.txt" = true →
  example w =
    (Returned VNone,
     {| files :=
          <["typeerror.txt" := RegularFile trace4]>
            (<["zerodivisionerror.txt" := RegularFile trace3]> (files w));
        events :=
          events w ++
            [EvPrint (VStr "No Error:"); EvPrint (VFloat 2.5);
             EvPrint (VStr "Error Catched by TypeError:");
             EvOpen "typeerror.txt"; EvWrite "typeerror.txt" trace2;
             EvClose "typeerror.txt"; EvPrint type_error_message;
             EvPrint (VStr "Error Catched by ZeroDivisionError:");
             EvOpen "zerodivisionerror.txt";
             EvWrite "zerodivisionerror.txt" trace3;
             EvClose "zerodivisionerror.txt";
             EvPrint (VStr "Division by 0 is impossible!");
             EvPrint (VStr "Error Catched by TypeError:");
             EvOpen "typeerror.txt"; EvWrite "typeerror.txt" trace4;
             EvClose "typeerror.txt"; EvPrint type_error_message] |}).
Proof.
  intros trace2 trace3 trace4 type_error_message Hte Hzde.
  assert (∀ w0, div_array (call1 (VList [VInt 10; VInt 2; VInt 2])) w0 =
                (Returned (VFloat 2.5), w0)) as Hcall1 by reflexivity.
  assert (∀ w0, can_write w0 "typeerror.txt" = true →
                div_array (call1 (VList [VStr "1"; VInt 2])) w0 =
                (Returned type_error_message, logged "typeerror.txt" trace2 w0))
    as Hcall2.
  { intros w0 Hw0. rewrite div_array_layers.
    apply (decorate_first_match exc_handler [zero_division_layer]
             type_error_layer [catch_all_layer] div_array_body
             (call1 (VList [VStr "1"; VInt 2])) w0
             (new TypeError "unsupported operand type(s) for /: 'str' and 'int'")
             [here "div_array" 73; here "<lambda>" 73] w0); try done.
    by repeat constructor. }
  assert (∀ w0, can_write w0 "zerodivisionerror.txt" = true →
                div_array (call1 (VList [VInt 10; VInt 0])) w0 =
                (Returned (VStr "Division by 0 is impossible!"),
                 logged "zerodivisionerror.txt" trace3 w0)) as Hcall3.
  { intros w0 Hw0. rewrite div_array_layers.
    by apply (decorate_first_match exc_handler [] zero_division_layer
                [type_error_layer; catch_all_layer] div_array_body
                (call1 (VList [VInt 10; VInt 0])) w0
                (new ZeroDivisionError "division by zero")
                [here "div_array" 73; here "<lambda>" 73] w0). }
  assert (∀ w0, can_write w0 "typeerror.txt" = true →
                div_array (call1 (VInt 1)) w0 =
                (Returned type_error_message,
                 logged "typeerror.txt" trace4 w0)) as Hcall4.
  { intros w0 Hw0. rewrite div_array_layers.
    apply (decorate_first_match exc_handler [zero_division_layer]
             type_error_layer [catch_all_layer] div_array_body
             (call1 (VInt 1)) w0
             (new TypeError "reduce() arg 2 must support iteration")
             [here "div_array" 73] w0); try done.
    by repeat constructor. }
  clearbody trace2 trace3 trace4 type_error_message.
  unfold example.
  rewrite bind_print, (bind_call_returned _ _ _ _ _ _ (Hcall1 _)).
  rewrite !bind_print.
  erewrite bind_call_returned; cycle 1.
  { apply Hcall2. by rewrite (can_write_same_files _ w). }
  rewrite !bind_print.
  erewrite bind_call_returned; cycle 1.
  { apply Hcall3.
    by rewrite (can_write_other_insert _ w _ "typeerror.txt"
                  (RegularFile trace2)). }
  rewrite !bind_print.
  erewrite bind_call_returned; cycle 1.
  { apply Hcall4. unfold can_write. simpl.
    rewrite lookup_insert_ne by done. by rewrite lookup_insert_eq. }
  rewrite bind_print. unfold ret. f_equal. apply world_eq; simpl.
  - rewrite (insert_insert_ne (files w)); [|done].
    by rewrite insert_insert_eq.
  - by rewrite <- !app_assoc.
Qed.

Lemma example_on_a_writable_host_witness :
  (example stale_world).1 = Returned VNone
  ∧ files ((example stale_world).2) !! "typeerror.txt" =
      Some (RegularFile
              (format_exc
                 (new TypeError "reduce() arg 2 must support iteration")
                 [here "wrapper" 35; here "wrapper" 35; here "div_array" 73]))
  ∧ files ((example stale_world).2) !! "default_error_log.txt" = None.
Proof.
  rewrite (example_on_a_writable_host stale_world eq_refl eq_refl).
  repeat split.
Defined.

(** X21. The guards hand keyword arguments on as they are: calling
    [div_array(num_array=v)] is the same as calling [div_array(v)], on every
    host. *)
Theorem div_array_keyword_argument (v : value) (w : world) :
  div_array {| positional := []; keywords := [("num_array", v)] |} w =
  div_array (call1 v) w.
Proof.
  assert (∀ (f : callable) args1 args2 classes rm lf,
            (∀ w0, f args1 w0 = f args2 w0) →
            ∀ w0, exception_handler_decorator exc_handler classes rm lf f args1 w0
                  = exception_handler_decorator exc_handler classes rm lf f
                      args2 w0) as Hthrough.
  { intros f args1 args2 classes rm lf Hf w0.
    rewrite !exception_handler_decorator_unfold.
    unfold wrapper, try_except, in_frame. by rewrite Hf. }
  unfold div_array. apply Hthrough. apply Hthrough. apply Hthrough.
  intros w0. by rewrite !div_array_body_unfold.
Qed.
